(** * Trim Galore workflow task: command construction and output staging

    A shallow embedding of [src/wf/__init__.py]: the enums
    [BaseQualityEncoding] and [AdapterSequence], [_fmt_dir], and the body of
    [trim_reads_task] (the argument list handed to [subprocess.run] and the
    [LatchDir] it returns), together with the Python built-ins the task
    relies on: truthiness of optional values, [str] on [int] and [float]. *)

From Stdlib Require Import ZArith List Bool Ascii String Lia.
From Stdlib Require Import DecimalString SpecFloat.
Import ListNotations.

Open Scope string_scope.
Open Scope list_scope.

(** ** Python built-ins used by the task *)

Module Py.

(** [Optional[T]]: [None] is [None], a value [v] is [Some v]. *)

(** *** [int]: unbounded integers; [str(int)] and truthiness *)

Definition str_int (z : Z) : string :=
  NilZero.string_of_int (Z.to_int z).

Definition truthy_int (z : Z) : bool := negb (z =? 0)%Z.

(** *** [str]: truthiness is non-emptiness *)

Definition truthy_str (s : string) : bool :=
  match s with
  | EmptyString => false
  | String _ _ => true
  end.

(** *** [float]: IEEE 754 binary64, as the standard library's [spec_float]
    with precision 53 and maximal exponent 1024 *)

Definition float : Type := spec_float.

Definition prec : Z := 53.
Definition emax : Z := 1024.

Definition float_valid (f : float) : bool := valid_binary prec emax f.

(** [bool(x)] on a float is [x != 0.0]: both zeros are falsy, everything
    else, NaN and the infinities included, is truthy. *)
Definition truthy_float (f : float) : bool :=
  match f with
  | S754_zero _ => false
  | _ => true
  end.

(** Truthiness of an [Optional] value: [None] is falsy, a present value
    has the truthiness of its type. *)
Definition truthy_opt {A : Type} (truthy : A -> bool) (o : option A) : bool :=
  match o with
  | None => false
  | Some v => truthy v
  end.

(** The float nearest to the integer [z] and the float literals of the
    source. *)
Definition float_of_Z (z : Z) : float := binary_normalize prec emax z 0 false.

(** The literal [0.01]: [0x1.47ae147ae147bp-7]. *)
Definition float_0_01 : float := S754_finite false 5764607523034235 (-59).
(** The literal [0.05]: [0x1.999999999999ap-5]. *)
Definition float_0_05 : float := S754_finite false 7205759403792794 (-57).
Definition float_zero : float := S754_zero false.

(** *** [str(float)], that is [float.__repr__]: the shortest decimal
    string that reads back as the same float, nearest to it among the
    shortest, printed in fixed notation when the decimal point position
    [decpt] satisfies [-4 < decpt <= 16] and in exponent notation
    otherwise. *)

(** A finite float [S754_finite s m e] is [m * 2^e], negated when [s];
    in canonical form ([float_valid]) [m] has 53 bits, or fewer at the
    least exponent. *)

(** Comparison of [a * 2^s] with [d * 10^k] for non-negative [a], [d]. *)
Definition cmp_bin_dec (a s d k : Z) : comparison :=
  let lhs := (a * 2 ^ Z.max s 0 * 10 ^ Z.max (- k) 0)%Z in
  let rhs := (d * 10 ^ Z.max k 0 * 2 ^ Z.max (- s) 0)%Z in
  (lhs ?= rhs)%Z.

Definition leb_bin_dec (a s d k : Z) : bool :=
  match cmp_bin_dec a s d k with Gt => false | _ => true end.
Definition ltb_bin_dec (a s d k : Z) : bool :=
  match cmp_bin_dec a s d k with Lt => true | _ => false end.

(** [decpt_up fuel a s p]: the least [p' >= p] with [a * 2^s < 10^p']. *)
Fixpoint decpt_up (fuel : nat) (a s p : Z) : Z :=
  match fuel with
  | O => p
  | S fuel' =>
      if ltb_bin_dec a s 1 p then p else decpt_up fuel' a s (p + 1)%Z
  end.

(** The position of the decimal point of [a * 2^s > 0]: the [p] with
    [10^(p-1) <= a * 2^s < 10^p].  With [b] the binary exponent of the
    number, [p] is at least [b * log10 2], and the search starts one
    below an estimate of that. *)
Definition decpt_of (a s : Z) : Z :=
  let b := (Z.log2 a + s)%Z in
  decpt_up 8 a s (b * 30103 / 100000 - 1)%Z.

(** The rounding interval of the float [m * 2^e], in units of [2^(e-2)]:
    the midpoints to its two neighbours.  Below a power of two the
    neighbour is twice as close. *)
Definition interval_lo (m e : Z) : Z :=
  if ((m =? 2 ^ (prec - 1)) && (emin prec emax <? e))%Z
  then (4 * m - 1)%Z else (4 * m - 2)%Z.
Definition interval_hi (m : Z) : Z := (4 * m + 2)%Z.

(** Does [d * 10^k] read back as [m * 2^e]?  The ends of the interval
    do when [m] is even (round-half-even). *)
Definition reads_back (m e d k : Z) : bool :=
  let s := (e - 2)%Z in
  if Z.even m
  then leb_bin_dec (interval_lo m e) s d k
       && negb (ltb_bin_dec (interval_hi m) s d k)
  else ltb_bin_dec (interval_lo m e) s d k
       && negb (leb_bin_dec (interval_hi m) s d k).

(** The candidate with [n] digits: the two [n]-digit decimals around
    [m * 2^e], the nearer one that reads back (the even one on a tie). *)
Definition candidate (m e decpt : Z) (n : Z) : option Z :=
  let k := (decpt - n)%Z in
  let num := (m * 2 ^ Z.max e 0 * 10 ^ Z.max (- k) 0)%Z in
  let den := (10 ^ Z.max k 0 * 2 ^ Z.max (- e) 0)%Z in
  let lo := (num / den)%Z in
  let hi := (lo + 1)%Z in
  let lo_ok := reads_back m e lo k in
  let hi_ok := reads_back m e hi k in
  (* 2 * (x - lo) compared with 1, in units of 10^k *)
  let c := (2 * (num - lo * den) ?= den)%Z in
  match lo_ok, hi_ok with
  | true, true =>
      match c with
      | Lt => Some lo
      | Gt => Some hi
      | Eq => Some (if Z.even lo then lo else hi)
      end
  | true, false => Some lo
  | false, true => Some hi
  | false, false => None
  end.

(** The shortest candidate, tried with [n], [n + 1], ... digits: the pair
    [(d, k)] stands for [d * 10^k].  Seventeen digits always read back, so
    on a float in canonical form the search started at one digit with
    fuel 17 never runs out. *)
Fixpoint shortest (fuel : nat) (m e decpt n : Z) : Z * Z :=
  match fuel with
  | O => (m, 0%Z)
  | S fuel' =>
      match candidate m e decpt n with
      | Some d => (d, (decpt - n)%Z)
      | None => shortest fuel' m e decpt (n + 1)%Z
      end
  end.

(** Digits of a positive integer, most significant first. *)
Definition digits_of (d : Z) : list ascii :=
  list_ascii_of_string (NilZero.string_of_uint (N.to_uint (Z.to_N d))).

Fixpoint strip_zeros_rev (l : list ascii) : list ascii :=
  match l with
  | "0"%char :: l' => strip_zeros_rev l'
  | _ => l
  end.
Definition strip_trailing_zeros (l : list ascii) : list ascii :=
  rev (strip_zeros_rev (rev l)).

Definition zeros (n : Z) : list ascii := repeat "0"%char (Z.to_nat n).

(** Exponent of the exponent notation: sign and at least two digits. *)
Definition exp_suffix (x : Z) : list ascii :=
  let ds := digits_of (Z.abs x) in
  "e"%char :: (if (x <? 0)%Z then "-"%char else "+"%char)
    :: (if (Z.abs x <? 10)%Z then "0"%char :: ds else ds).

(** [format_digits d0 rest decpt]: the number [0.d0 rest * 10^decpt],
    where [rest] has no trailing zero. *)
Definition format_digits (d0 : ascii) (rest : list ascii) (decpt : Z)
  : list ascii :=
  let ds := d0 :: rest in
  let n := Z.of_nat (List.length ds) in
  if ((-4 <? decpt) && (decpt <=? 16))%Z then
    if (decpt <=? 0)%Z then
      "0"%char :: "."%char :: zeros (- decpt) ++ ds
    else if (decpt <? n)%Z then
      d0 :: firstn (Z.to_nat (decpt - 1)) rest
         ++ "."%char :: skipn (Z.to_nat (decpt - 1)) rest
    else
      ds ++ zeros (decpt - n) ++ ["."%char; "0"%char]
  else
    match rest with
    | [] => d0 :: exp_suffix (decpt - 1)
    | _ => d0 :: "."%char :: rest ++ exp_suffix (decpt - 1)
    end.

Definition repr_finite (m e : Z) : list ascii :=
  let '(d, k) := shortest 17 m e (decpt_of m e) 1 in
  match digits_of d with
  | [] => []
  | d0 :: rest =>
      format_digits d0 (strip_trailing_zeros rest)
        (k + Z.of_nat (List.length (d0 :: rest)))
  end.

Definition str_float (f : float) : string :=
  match f with
  | S754_zero false => "0.0"
  | S754_zero true => "-0.0"
  | S754_infinity false => "inf"
  | S754_infinity true => "-inf"
  | S754_nan => "nan"
  | S754_finite s m e =>
      (if s then "-" else "")
        ++ string_of_list_ascii (repr_finite (Zpos m) e)
  end.

End Py.

(** ** The SDK's file and directory references, as far as the task uses
    them: [LatchFile.local_path], [LatchDir(path, remote_path)] and
    [LatchDir.remote_source]. *)

Record LatchFile : Type := { local_path : string }.

Record LatchDir : Type := mkLatchDir { dir_path : string; remote_source : string }.

(** ** The enums *)

Module BaseQualityEncoding.
Inductive t : Type := phred33 | phred64.

Definition value (e : t) : string :=
  match e with
  | phred33 => "--phred33"
  | phred64 => "--phred64"
  end.
End BaseQualityEncoding.

Module AdapterSequence.
Inductive t : Type := auto | illumina | stranded_illumina | nextera | small_rna.

Definition value (e : t) : string :=
  match e with
  | auto => "auto"
  | illumina => "--illumina"
  | stranded_illumina => "--stranded_illumina"
  | nextera => "--nextera"
  | small_rna => "--small_rna"
  end.

(** [!=] on enum members is identity of members. *)
Definition neq (x y : t) : bool :=
  match x, y with
  | auto, auto | illumina, illumina | stranded_illumina, stranded_illumina
  | nextera, nextera | small_rna, small_rna => false
  | _, _ => true
  end.
End AdapterSequence.

(** ** Errors and effects *)

Inductive exn : Type :=
| IndexError            (* indexing an empty string *)
| LaunchError.          (* [subprocess.run] could not start the program *)

Inductive result (A : Type) : Type :=
| Ok (a : A)
| Raise (e : exn).
Arguments Ok {A} a.
Arguments Raise {A} e.

(** What [subprocess.run] returns when the child has run to completion. *)
Record CompletedProcess : Type := {
  cp_args : list string;
  returncode : Z;
  stdout : string
}.

(** A task is a computation that may launch child processes. *)
Inductive task (A : Type) : Type :=
| Return (a : A)
| Throw (e : exn)
| SubprocessRun (cmd : list string) (k : CompletedProcess -> task A).
Arguments Return {A} a.
Arguments Throw {A} e.
Arguments SubprocessRun {A} cmd k.

Definition lift {A : Type} (r : result A) : task A :=
  match r with
  | Ok a => Return a
  | Raise e => Throw e
  end.

Fixpoint bind {A B : Type} (m : task A) (f : A -> task B) : task B :=
  match m with
  | Return a => f a
  | Throw e => Throw e
  | SubprocessRun cmd k => SubprocessRun cmd (fun cp => bind (k cp) f)
  end.

Notation "x <- m ;; k" := (bind m (fun x => k))
  (at level 61, m at next level, right associativity).

(** The environment answers a launch with the child's exit status and
    captured output, or fails to launch it. *)
Definition environment : Type := list string -> result (Z * string).

(** [exec env m log]: run [m] against [env]; the log collects the argument
    lists of the processes launched, in order. *)
Fixpoint exec {A : Type} (env : environment) (m : task A)
  (log : list (list string)) : list (list string) * result A :=
  match m with
  | Return a => (log, Ok a)
  | Throw e => (log, Raise e)
  | SubprocessRun cmd k =>
      match env cmd with
      | Ok (code, out) =>
          exec env (k {| cp_args := cmd; returncode := code; stdout := out |})
               (log ++ [cmd])
      | Raise e => (log ++ [cmd], Raise e)
      end
  end.

(** ** [_fmt_dir] *)

(** [s[-1]]: the last character, [IndexError] on the empty string. *)
Fixpoint str_last (s : string) : result ascii :=
  match s with
  | EmptyString => Raise IndexError
  | String c EmptyString => Ok c
  | String _ s' => str_last s'
  end.

(** [s[:-1]]: all but the last character. *)
Fixpoint str_drop_last (s : string) : string :=
  match s with
  | EmptyString => EmptyString
  | String _ EmptyString => EmptyString
  | String c s' => String c (str_drop_last s')
  end.

Definition _fmt_dir (bucket_path : string) : result string :=
  match str_last bucket_path with
  | Raise e => Raise e
  | Ok c =>
      if Ascii.eqb c "/"%char
      then Ok (str_drop_last bucket_path)
      else Ok bucket_path
  end.

(** ** [trim_reads_task] *)

Module Task.

(** The parameters of [trim_reads_task], under their own names. *)
Record args : Type := Args {
  input_forward : LatchFile;
  input_reverse : LatchFile;
  base_out : option string;
  output_directory : option LatchDir;
  fastqc_args : option string;
  adapter : option string;
  adapter2 : option string;
  consider_already_trimmed : option Z;
  max_length : option Z;
  max_n : option Py.float;
  clip_R1 : option Z;
  clip_R2 : option Z;
  three_prime_clip_R1 : option Z;
  three_prime_clip_R2 : option Z;
  hardtrim5 : option Z;
  hardtrim3 : option Z;
  quality : Z;
  base_quality_encoding : BaseQualityEncoding.t;
  fastqc : bool;
  adapter_sequence : AdapterSequence.t;
  stringency : Z;
  error_rate : Py.float;
  gzip_output_files : bool;
  length : Z;
  trim_n : bool;
  report_file : bool;
  polyA : bool;
  implicon : bool;
  retain_unpaired : bool;
  length_1 : Z;
  length_2 : Z
}.

(** The declared defaults; the [Optional] parameters, which have none,
    are [None]. *)
Definition defaults (fwd rev : LatchFile) : args :=
  {| input_forward := fwd;
     input_reverse := rev;
     base_out := None;
     output_directory := None;
     fastqc_args := None;
     adapter := None;
     adapter2 := None;
     consider_already_trimmed := None;
     max_length := None;
     max_n := None;
     clip_R1 := None;
     clip_R2 := None;
     three_prime_clip_R1 := None;
     three_prime_clip_R2 := None;
     hardtrim5 := None;
     hardtrim3 := None;
     quality := 20%Z;
     base_quality_encoding := BaseQualityEncoding.phred33;
     fastqc := true;
     adapter_sequence := AdapterSequence.auto;
     stringency := 1%Z;
     error_rate := Py.float_0_01;
     gzip_output_files := false;
     length := 20%Z;
     trim_n := false;
     report_file := true;
     polyA := false;
     implicon := false;
     retain_unpaired := true;
     length_1 := 35%Z;
     length_2 := 35%Z |}.

(** Calls with one keyword argument changed. *)
Definition with_base_out (v : option string) (a : args) : args :=
  {| input_forward := input_forward a;
     input_reverse := input_reverse a;
     base_out := v;
     output_directory := output_directory a;
     fastqc_args := fastqc_args a;
     adapter := adapter a;
     adapter2 := adapter2 a;
     consider_already_trimmed := consider_already_trimmed a;
     max_length := max_length a;
     max_n := max_n a;
     clip_R1 := clip_R1 a;
     clip_R2 := clip_R2 a;
     three_prime_clip_R1 := three_prime_clip_R1 a;
     three_prime_clip_R2 := three_prime_clip_R2 a;
     hardtrim5 := hardtrim5 a;
     hardtrim3 := hardtrim3 a;
     quality := quality a;
     base_quality_encoding := base_quality_encoding a;
     fastqc := fastqc a;
     adapter_sequence := adapter_sequence a;
     stringency := stringency a;
     error_rate := error_rate a;
     gzip_output_files := gzip_output_files a;
     length := length a;
     trim_n := trim_n a;
     report_file := report_file a;
     polyA := polyA a;
     implicon := implicon a;
     retain_unpaired := retain_unpaired a;
     length_1 := length_1 a;
     length_2 := length_2 a |}.

Definition with_output_directory (v : option LatchDir) (a : args) : args :=
  {| input_forward := input_forward a;
     input_reverse := input_reverse a;
     base_out := base_out a;
     output_directory := v;
     fastqc_args := fastqc_args a;
     adapter := adapter a;
     adapter2 := adapter2 a;
     consider_already_trimmed := consider_already_trimmed a;
     max_length := max_length a;
     max_n := max_n a;
     clip_R1 := clip_R1 a;
     clip_R2 := clip_R2 a;
     three_prime_clip_R1 := three_prime_clip_R1 a;
     three_prime_clip_R2 := three_prime_clip_R2 a;
     hardtrim5 := hardtrim5 a;
     hardtrim3 := hardtrim3 a;
     quality := quality a;
     base_quality_encoding := base_quality_encoding a;
     fastqc := fastqc a;
     adapter_sequence := adapter_sequence a;
     stringency := stringency a;
     error_rate := error_rate a;
     gzip_output_files := gzip_output_files a;
     length := length a;
     trim_n := trim_n a;
     report_file := report_file a;
     polyA := polyA a;
     implicon := implicon a;
     retain_unpaired := retain_unpaired a;
     length_1 := length_1 a;
     length_2 := length_2 a |}.

Definition with_fastqc_args (v : option string) (a : args) : args :=
  {| input_forward := input_forward a;
     input_reverse := input_reverse a;
     base_out := base_out a;
     output_directory := output_directory a;
     fastqc_args := v;
     adapter := adapter a;
     adapter2 := adapter2 a;
     consider_already_trimmed := consider_already_trimmed a;
     max_length := max_length a;
     max_n := max_n a;
     clip_R1 := clip_R1 a;
     clip_R2 := clip_R2 a;
     three_prime_clip_R1 := three_prime_clip_R1 a;
     three_prime_clip_R2 := three_prime_clip_R2 a;
     hardtrim5 := hardtrim5 a;
     hardtrim3 := hardtrim3 a;
     quality := quality a;
     base_quality_encoding := base_quality_encoding a;
     fastqc := fastqc a;
     adapter_sequence := adapter_sequence a;
     stringency := stringency a;
     error_rate := error_rate a;
     gzip_output_files := gzip_output_files a;
     length := length a;
     trim_n := trim_n a;
     report_file := report_file a;
     polyA := polyA a;
     implicon := implicon a;
     retain_unpaired := retain_unpaired a;
     length_1 := length_1 a;
     length_2 := length_2 a |}.



Definition with_max_n (v : option Py.float) (a : args) : args :=
  {| input_forward := input_forward a;
     input_reverse := input_reverse a;
     base_out := base_out a;
     output_directory := output_directory a;
     fastqc_args := fastqc_args a;
     adapter := adapter a;
     adapter2 := adapter2 a;
     consider_already_trimmed := consider_already_trimmed a;
     max_length := max_length a;
     max_n := v;
     clip_R1 := clip_R1 a;
     clip_R2 := clip_R2 a;
     three_prime_clip_R1 := three_prime_clip_R1 a;
     three_prime_clip_R2 := three_prime_clip_R2 a;
     hardtrim5 := hardtrim5 a;
     hardtrim3 := hardtrim3 a;
     quality := quality a;
     base_quality_encoding := base_quality_encoding a;
     fastqc := fastqc a;
     adapter_sequence := adapter_sequence a;
     stringency := stringency a;
     error_rate := error_rate a;
     gzip_output_files := gzip_output_files a;
     length := length a;
     trim_n := trim_n a;
     report_file := report_file a;
     polyA := polyA a;
     implicon := implicon a;
     retain_unpaired := retain_unpaired a;
     length_1 := length_1 a;
     length_2 := length_2 a |}.

Definition with_clip_R1 (v : option Z) (a : args) : args :=
  {| input_forward := input_forward a;
     input_reverse := input_reverse a;
     base_out := base_out a;
     output_directory := output_directory a;
     fastqc_args := fastqc_args a;
     adapter := adapter a;
     adapter2 := adapter2 a;
     consider_already_trimmed := consider_already_trimmed a;
     max_length := max_length a;
     max_n := max_n a;
     clip_R1 := v;
     clip_R2 := clip_R2 a;
     three_prime_clip_R1 := three_prime_clip_R1 a;
     three_prime_clip_R2 := three_prime_clip_R2 a;
     hardtrim5 := hardtrim5 a;
     hardtrim3 := hardtrim3 a;
     quality := quality a;
     base_quality_encoding := base_quality_encoding a;
     fastqc := fastqc a;
     adapter_sequence := adapter_sequence a;
     stringency := stringency a;
     error_rate := error_rate a;
     gzip_output_files := gzip_output_files a;
     length := length a;
     trim_n := trim_n a;
     report_file := report_file a;
     polyA := polyA a;
     implicon := implicon a;
     retain_unpaired := retain_unpaired a;
     length_1 := length_1 a;
     length_2 := length_2 a |}.

Definition with_adapter_sequence (v : AdapterSequence.t) (a : args) : args :=
  {| input_forward := input_forward a;
     input_reverse := input_reverse a;
     base_out := base_out a;
     output_directory := output_directory a;
     fastqc_args := fastqc_args a;
     adapter := adapter a;
     adapter2 := adapter2 a;
     consider_already_trimmed := consider_already_trimmed a;
     max_length := max_length a;
     max_n := max_n a;
     clip_R1 := clip_R1 a;
     clip_R2 := clip_R2 a;
     three_prime_clip_R1 := three_prime_clip_R1 a;
     three_prime_clip_R2 := three_prime_clip_R2 a;
     hardtrim5 := hardtrim5 a;
     hardtrim3 := hardtrim3 a;
     quality := quality a;
     base_quality_encoding := base_quality_encoding a;
     fastqc := fastqc a;
     adapter_sequence := v;
     stringency := stringency a;
     error_rate := error_rate a;
     gzip_output_files := gzip_output_files a;
     length := length a;
     trim_n := trim_n a;
     report_file := report_file a;
     polyA := polyA a;
     implicon := implicon a;
     retain_unpaired := retain_unpaired a;
     length_1 := length_1 a;
     length_2 := length_2 a |}.

Definition with_error_rate (v : Py.float) (a : args) : args :=
  {| input_forward := input_forward a;
     input_reverse := input_reverse a;
     base_out := base_out a;
     output_directory := output_directory a;
     fastqc_args := fastqc_args a;
     adapter := adapter a;
     adapter2 := adapter2 a;
     consider_already_trimmed := consider_already_trimmed a;
     max_length := max_length a;
     max_n := max_n a;
     clip_R1 := clip_R1 a;
     clip_R2 := clip_R2 a;
     three_prime_clip_R1 := three_prime_clip_R1 a;
     three_prime_clip_R2 := three_prime_clip_R2 a;
     hardtrim5 := hardtrim5 a;
     hardtrim3 := hardtrim3 a;
     quality := quality a;
     base_quality_encoding := base_quality_encoding a;
     fastqc := fastqc a;
     adapter_sequence := adapter_sequence a;
     stringency := stringency a;
     error_rate := v;
     gzip_output_files := gzip_output_files a;
     length := length a;
     trim_n := trim_n a;
     report_file := report_file a;
     polyA := polyA a;
     implicon := implicon a;
     retain_unpaired := retain_unpaired a;
     length_1 := length_1 a;
     length_2 := length_2 a |}.

Definition with_gzip_output_files (v : bool) (a : args) : args :=
  {| input_forward := input_forward a;
     input_reverse := input_reverse a;
     base_out := base_out a;
     output_directory := output_directory a;
     fastqc_args := fastqc_args a;
     adapter := adapter a;
     adapter2 := adapter2 a;
     consider_already_trimmed := consider_already_trimmed a;
     max_length := max_length a;
     max_n := max_n a;
     clip_R1 := clip_R1 a;
     clip_R2 := clip_R2 a;
     three_prime_clip_R1 := three_prime_clip_R1 a;
     three_prime_clip_R2 := three_prime_clip_R2 a;
     hardtrim5 := hardtrim5 a;
     hardtrim3 := hardtrim3 a;
     quality := quality a;
     base_quality_encoding := base_quality_encoding a;
     fastqc := fastqc a;
     adapter_sequence := adapter_sequence a;
     stringency := stringency a;
     error_rate := error_rate a;
     gzip_output_files := v;
     length := length a;
     trim_n := trim_n a;
     report_file := report_file a;
     polyA := polyA a;
     implicon := implicon a;
     retain_unpaired := retain_unpaired a;
     length_1 := length_1 a;
     length_2 := length_2 a |}.

(** *** Statements on the list [_cmd] *)

Definition stmt : Type := list string -> list string.

Definition extend (xs : list string) : stmt := fun _cmd => _cmd ++ xs.
Definition append (x : string) : stmt := fun _cmd => _cmd ++ [x].

(** [if c: s] *)
Definition If (c : bool) (s : stmt) : stmt :=
  fun _cmd => if c then s _cmd else _cmd.
(** [if c: s1 else: s2] *)
Definition IfElse (c : bool) (s1 s2 : stmt) : stmt :=
  fun _cmd => if c then s1 _cmd else s2 _cmd.
(** [if x: s] for an [Optional] [x]; [s] uses the value. *)
Definition IfTruthy {A : Type} (truthy : A -> bool) (x : option A)
  (s : A -> stmt) : stmt :=
  fun _cmd =>
    match x with
    | Some v => if truthy v then s v _cmd else _cmd
    | None => _cmd
    end.

Definition block (ss : list stmt) : stmt :=
  fun _cmd => fold_left (fun l s => s l) ss _cmd.

Definition dquote : string := String "034"%char EmptyString.

Definition local_dir : string := "trim_galore_out".

(** The statements of the task from the first assignment of [_cmd] to
    the call of [subprocess.run], in order. *)
Definition cmd_stmts (a : args) : list stmt :=
  [ (* input / output arguments *)
    extend [ "./TrimGalore-0.6.10/trim_galore";
             local_path (input_forward a);
             local_path (input_reverse a);
             "--paired";
             "--output_dir";
             local_dir ];
    IfTruthy Py.truthy_str (base_out a)
      (fun base_out => extend ["--basename"; base_out]);
    IfElse (gzip_output_files a) (append "--gzip") (append "--dont_gzip");
    If (retain_unpaired a) (append "--retain_unpaired");
    (* quality arguments *)
    extend [ "--quality";
             Py.str_int (quality a);
             BaseQualityEncoding.value (base_quality_encoding a);
             "--length";
             Py.str_int (length a);
             "--length_1";
             Py.str_int (length_1 a);
             "--length_2";
             Py.str_int (length_2 a) ];
    IfTruthy Py.truthy_int (max_length a)
      (fun max_length => extend ["--max_length"; Py.str_int max_length]);
    IfTruthy Py.truthy_float (max_n a)
      (fun max_n => extend ["--max_n"; Py.str_float max_n]);
    If (trim_n a) (append "--trim-n");
    (* arguments for handling adapters *)
    If (AdapterSequence.neq (adapter_sequence a) AdapterSequence.auto)
      (append (AdapterSequence.value (adapter_sequence a)));
    If (Py.truthy_float (error_rate a))
      (extend ["-e"; Py.str_float (error_rate a)]);
    extend ["--stringency"; Py.str_int (stringency a)];
    IfTruthy Py.truthy_str (adapter a)
      (fun adapter => extend ["--adapter"; adapter]);
    IfTruthy Py.truthy_str (adapter2 a)
      (fun adapter2 => extend ["--adapter2"; adapter2]);
    IfTruthy Py.truthy_int (consider_already_trimmed a)
      (fun v => extend ["--consider_already_trimmed"; Py.str_int v]);
    (* reporting arguments *)
    If (fastqc a) (append "--fastqc");
    IfTruthy Py.truthy_str (fastqc_args a)
      (fun fastqc_args =>
         extend ["--fastqc_args"; (dquote ++ fastqc_args ++ dquote)%string]);
    If (negb (report_file a)) (append "--no_report_file");
    (* Misc. arguments *)
    IfTruthy Py.truthy_int (hardtrim5 a)
      (fun v => extend ["--hardtrim5"; Py.str_int v]);
    IfTruthy Py.truthy_int (hardtrim3 a)
      (fun v => extend ["--hardtrim3"; Py.str_int v]);
    IfTruthy Py.truthy_int (clip_R1 a)
      (fun v => extend ["--clip_R1"; Py.str_int v]);
    IfTruthy Py.truthy_int (clip_R2 a)
      (fun v => extend ["--clip_R2"; Py.str_int v]);
    If (polyA a) (append "--polyA");
    If (implicon a) (append "--implicon");
    IfTruthy Py.truthy_int (three_prime_clip_R1 a)
      (fun v => extend ["--three_prime_clip_R1"; Py.str_int v]);
    IfTruthy Py.truthy_int (three_prime_clip_R2 a)
      (fun v => extend ["--three_prime_clip_R2"; Py.str_int v]) ].

(** The value of [_cmd] at the call of [subprocess.run]. *)
Definition trim_reads_cmd (a : args) : list string :=
  block (cmd_stmts a) [].

Definition default_location : string := "latch:///Trim Galore Output/".

(** The destination: lines 409-412. *)
Definition latch_out_location (a : args) : result string :=
  match output_directory a with
  | Some d => _fmt_dir (remote_source d)
  | None => Ok default_location
  end.

Definition trim_reads_task (a : args) : task LatchDir :=
  let _cmd := trim_reads_cmd a in
  SubprocessRun _cmd (fun _ =>
    loc <- lift (latch_out_location a) ;;
    Return (mkLatchDir local_dir loc)).

(** *** Statements only add to the end of [_cmd] *)

Definition additive (s : stmt) : Prop := forall l, s l = l ++ s [].

(** What a statement adds. *)
Definition added (s : stmt) : list string := s [].

End Task.
(** * Vocabulary of the properties *)

(** ** The shape of [str] on numbers *)

Definition is_digit (c : ascii) : bool :=
  (Ascii.leb "0" c && Ascii.leb c "9")%char.

(** A string that starts like a number: a digit, or a minus sign before a
    digit or before [inf]; or is [inf] or [nan]. *)
Definition numeric_like (s : string) : bool :=
  match s with
  | EmptyString => false
  | String c r =>
      is_digit c
      || (Ascii.eqb c "-"
          && match r with
             | EmptyString => false
             | String c2 _ => is_digit c2 || Ascii.eqb c2 "i"
             end)
      || String.eqb s "inf" || String.eqb s "nan"
  end.

Definition starts_with_dquote (t : string) : bool :=
  match t with
  | String c _ => Ascii.eqb c "034"
  | EmptyString => false
  end.

(** ** Tokens of an argument list *)

(** Number of occurrences of the token [t] in an argument list. *)
Fixpoint count (t : string) (l : list string) : nat :=
  match l with
  | [] => 0
  | x :: r => (if String.eqb x t then 1 else 0) + count t r
  end.

(** One occurrence of [t] when the literal [f] is [t]. *)
Definition flag (t f : string) : nat := if String.eqb f t then 1 else 0.

(** [l] contains the two tokens [f], [v] next to each other. *)
Definition emits_pair (l : list string) (f v : string) : Prop :=
  exists pre post, l = pre ++ [f; v] ++ post.

(** The strings of the caller that the task copies into [_cmd] as they
    are: the two input paths, and [base_out], [adapter] and [adapter2]
    when they are truthy. *)
Definition passed (o : option string) : list string :=
  match o with
  | Some v => if Py.truthy_str v then [v] else []
  | None => []
  end.

Definition user_strings (a : Task.args) : list string :=
  [local_path (Task.input_forward a); local_path (Task.input_reverse a)]
    ++ passed (Task.base_out a)
    ++ passed (Task.adapter a)
    ++ passed (Task.adapter2 a).

(** ** Sample calls *)

Definition fwd0 : LatchFile := {| local_path := "/root/reads_1.fq" |}.
Definition rev0 : LatchFile := {| local_path := "/root/reads_2.fq" |}.

(** Only the two input files set. *)
Definition args0 : Task.args := Task.defaults fwd0 rev0.

Definition args_gzip : Task.args := Task.with_gzip_output_files true args0.
Definition args_base_out_gzip : Task.args :=
  Task.with_base_out (Some "--gzip") args0.
Definition args_base_out_nextera : Task.args :=
  Task.with_base_out (Some "--nextera") args0.
Definition args_nextera : Task.args :=
  Task.with_adapter_sequence AdapterSequence.nextera args0.
Definition args_max_n_zero : Task.args :=
  Task.with_max_n (Some Py.float_zero) args0.
Definition args_max_n_0_05 : Task.args :=
  Task.with_max_n (Some Py.float_0_05) args0.
Definition args_override : Task.args :=
  Task.with_output_directory
    (Some (mkLatchDir "/root/out" "s3://bucket/path/")) args0.

(** ** The default command line *)

(** The argument list that the specification gives for a call with only
    the two input files set. *)
Definition spec_default_cmd (fwd rev : LatchFile) : list string :=
  [ "./TrimGalore-0.6.10/trim_galore"; local_path fwd; local_path rev;
    "--paired"; "--output_dir"; "trim_galore_out"; "--dont_gzip";
    "--retain_unpaired"; "--quality"; "20"; "--phred33"; "--length"; "20";
    "--length_1"; "35"; "--length_2"; "35"; "--stringency"; "1" ].

(** ** Compression flags *)

(** Exactly one of [--gzip] and [--dont_gzip] occurs in [_cmd], once:
    [--gzip] when [gzip_output_files] is true, [--dont_gzip] otherwise. *)
Definition gzip_exclusive (a : Task.args) : Prop :=
  let c := Task.trim_reads_cmd a in
  if Task.gzip_output_files a
  then count "--gzip" c = 1 /\ count "--dont_gzip" c = 0
  else count "--gzip" c = 0 /\ count "--dont_gzip" c = 1.

(** ** Adapter family *)

Definition adapter_family_tokens : list string :=
  ["--illumina"; "--stranded_illumina"; "--nextera"; "--small_rna"].

(** The number of times the adapter statement adds the token [t]: once
    when [adapter_sequence] is not [auto] and [t] is its value. *)
Definition adapter_flag (e : AdapterSequence.t) (t : string) : nat :=
  match e with
  | AdapterSequence.auto => 0
  | _ => if String.eqb (AdapterSequence.value e) t then 1 else 0
  end.

(** With [auto] no adapter-family token occurs in [_cmd]; with any other
    member its own token occurs exactly once and the other three do not
    occur. *)
Definition adapter_flag_exact (a : Task.args) : Prop :=
  forall t, In t adapter_family_tokens ->
    count t (Task.trim_reads_cmd a) = adapter_flag (Task.adapter_sequence a) t.

(** ** [max_n] *)

(** The statements before and after [if max_n:]. *)
Definition before_max_n (a : Task.args) : list string :=
  Task.block (firstn 6 (Task.cmd_stmts a)) [].
Definition after_max_n (a : Task.args) : list string :=
  Task.block (skipn 7 (Task.cmd_stmts a)) [].

(** A present [max_n], whatever its value, puts [--max_n] and the value
    into [_cmd]. *)
Definition max_n_emitted_when_present (a : Task.args) : Prop :=
  forall f, Task.max_n a = Some f ->
    emits_pair (Task.trim_reads_cmd a) "--max_n" (Py.str_float f).

(** ** Running the task *)

(** An environment in which the child runs to completion with exit status
    [code] and output [out]. *)
Definition completes (code : Z) (out : string) : environment :=
  fun _ => Ok (code, out).

(** The override, when given, has a non-empty remote path. *)
Definition override_nonempty (a : Task.args) : Prop :=
  match Task.output_directory a with
  | Some d => remote_source d <> ""
  | None => True
  end.

(** ** The workflow *)


(** ** The workflow metadata: the parameters' display entries and the
    sections of the flow *)

Module Metadata.

(** [LatchParameter(...)]; [batch_table_column] is [None] where the
    source does not give it. *)
Record LatchParameter : Type := {
  display_name : string;
  description : string;
  hidden : bool;
  batch_table_column : option bool
}.

(** The [parameters] dictionary, in source order. *)
Definition parameters : list (string * LatchParameter) :=
  [ ("input_forward",
     {| display_name := "Input forward";
        description :=
          "forward input file";
        hidden := false;
        batch_table_column := Some true |});
    ("input_reverse",
     {| display_name := "Input reverse";
        description :=
          "reverse input file";
        hidden := false;
        batch_table_column := Some true |});
    ("base_out",
     {| display_name := "Basename for output files";
        description :=
          "Default is to derive the basename from the input files";
        hidden := false;
        batch_table_column := Some true |});
    ("output_directory",
     {| display_name := "Output directory name";
        description :=
          "Output directory name";
        hidden := false;
        batch_table_column := Some true |});
    ("base_quality_encoding",
     {| display_name := "Base Quality Encoding";
        description :=
          "Output directory name";
        hidden := false;
        batch_table_column := None |});
    ("fastqc",
     {| display_name := "Enable FastQC";
        description :=
          "Turn on to include FastQC results";
        hidden := false;
        batch_table_column := Some true |});
    ("fastqc_args",
     {| display_name := "Additional FastQC argument";
        description :=
          "add FastQC arguments as a string";
        hidden := false;
        batch_table_column := None |});
    ("adapter_sequence",
     {| display_name := "Adapter sequence to be trimmed from precurated set";
        description :=
          "Adapter sequence to be trimmed. Options are auto-detect, Illumina, stranded_illumina, nextera, and small RNA.";
        hidden := false;
        batch_table_column := Some true |});
    ("adapter",
     {| display_name := "Adapter sequence to be trimmed";
        description :=
          "Adapter sequence to be trimmed. If not specified, Trim Galore will try to auto-detect.";
        hidden := false;
        batch_table_column := None |});
    ("adapter2",
     {| display_name := "Adapter sequence to be trimmed for read 2 of paired-end files";
        description :=
          "Adapter sequence to be trimmed.";
        hidden := false;
        batch_table_column := None |});
    ("consider_already_trimmed",
     {| display_name := "Consider already trimmed";
        description :=
          "Set a threshold up to which the file is considered already adapter-trimmed.";
        hidden := false;
        batch_table_column := None |});
    ("max_length",
     {| display_name := "Max length";
        description :=
          "Discard reads that are longer than <INT> bp after trimming.";
        hidden := false;
        batch_table_column := None |});
    ("max_n",
     {| display_name := "Max Ns in a read";
        description :=
          "The total number of Ns a read may contain before it will be removed altogether.";
        hidden := false;
        batch_table_column := None |});
    ("quality",
     {| display_name := "Quality threshold";
        description :=
          "Trim low-quality ends from reads in addition to adapter removal.";
        hidden := false;
        batch_table_column := None |});
    ("stringency",
     {| display_name := "Stringency";
        description :=
          "Overlap with adapter sequence required to trim a sequence.";
        hidden := false;
        batch_table_column := None |});
    ("error_rate",
     {| display_name := "Error Rate";
        description :=
          "Maximum allowed error rate.";
        hidden := false;
        batch_table_column := None |});
    ("gzip_output_files",
     {| display_name := "GZip output";
        description :=
          "GZip output files.";
        hidden := false;
        batch_table_column := None |});
    ("length",
     {| display_name := "Read length cutoff";
        description :=
          "Discard reads that became shorter than length <INT> because of either quality or adapter trimming.";
        hidden := false;
        batch_table_column := None |});
    ("trim_n",
     {| display_name := "Trim Ns at ends";
        description :=
          "Removes Ns from either side of the read.";
        hidden := false;
        batch_table_column := None |});
    ("report_file",
     {| display_name := "Generate report files";
        description :=
          "Generate report files by default.";
        hidden := false;
        batch_table_column := None |});
    ("clip_R1",
     {| display_name := "Trim 5' end of read 1";
        description :=
          "Instructs Trim Galore to remove <INT> bp from the 5' end of read 1.";
        hidden := false;
        batch_table_column := None |});
    ("clip_R2",
     {| display_name := "Trim 5' end of read 2";
        description :=
          "Instructs Trim Galore to remove <INT> bp from the 5' end of read 2.";
        hidden := false;
        batch_table_column := None |});
    ("three_prime_clip_R1",
     {| display_name := "Trim 3' end of read 1";
        description :=
          "Instructs Trim Galore to remove <INT> bp from the 3' end of read 1.";
        hidden := false;
        batch_table_column := None |});
    ("three_prime_clip_R2",
     {| display_name := "Trim 3' end of read 2";
        description :=
          "Instructs Trim Galore to remove <INT> bp from the 3' end of read 2.";
        hidden := false;
        batch_table_column := None |});
    ("hardtrim5",
     {| display_name := "Hard-trim 5'-end";
        description :=
          "hard-trim sequences to <int> bp at the 5'-end";
        hidden := false;
        batch_table_column := None |});
    ("hardtrim3",
     {| display_name := "Hard-trim 3'-end";
        description :=
          "hard-trim sequences to <int> bp at the 3'-end";
        hidden := false;
        batch_table_column := None |});
    ("polyA",
     {| display_name := "Remove PolyA tails";
        description :=
          "Trim Galore attempts to identify from the first supplied sample whether sequences contain more often a stretch of either 'AAAAAAAAAA' or 'TTTTTTTTTT'";
        hidden := false;
        batch_table_column := None |});
    ("implicon",
     {| display_name := "Implicon";
        description :=
          "For paired-end data, transfer a unique molecular identifier from the start of Read 2 to the readID of both reads";
        hidden := false;
        batch_table_column := None |});
    ("retain_unpaired",
     {| display_name := "Retain unpaired reads";
        description :=
          "If only one of the two paired-end reads became too short, the longer read will be written to either '.unpaired_1.fq' or '.unpaired_2.fq' output files";
        hidden := false;
        batch_table_column := None |});
    ("length_1",
     {| display_name := "Unpaired single-end read 1 length cutoff";
        description :=
          "Unpaired single-end read length cutoff needed for read 1 to be written to '.unpaired_1.fq' output file";
        hidden := false;
        batch_table_column := None |});
    ("length_2",
     {| display_name := "Unpaired single-end read 2 length cutoff";
        description :=
          "Unpaired single-end read length cutoff needed for read 2 to be written to '.unpaired_2.fq' output file";
        hidden := false;
        batch_table_column := None |}) ].

(** [Section(name, Params(...))]. *)
Record FlowSection : Type := {
  section_name : string;
  section_params : list string
}.

(** The [flow] list. *)
Definition flow : list FlowSection :=
  [ {| section_name := "Input/Output";
       section_params :=
         [ "input_forward";
           "input_reverse";
           "base_out";
           "output_directory";
           "gzip_output_files";
           "retain_unpaired" ] |};
    {| section_name := "Quality";
       section_params :=
         [ "base_quality_encoding";
           "quality";
           "length";
           "length_1";
           "length_2";
           "max_n";
           "trim_n";
           "max_length" ] |};
    {| section_name := "Adapters";
       section_params :=
         [ "adapter_sequence";
           "error_rate";
           "stringency";
           "adapter";
           "adapter2";
           "consider_already_trimmed" ] |};
    {| section_name := "Reporting";
       section_params :=
         [ "fastqc";
           "fastqc_args";
           "report_file" ] |};
    {| section_name := "Miscellaneous";
       section_params :=
         [ "hardtrim5";
           "hardtrim3";
           "clip_R1";
           "clip_R2";
           "three_prime_clip_R1";
           "three_prime_clip_R2";
           "polyA";
           "implicon" ] |} ].

(** A dictionary lookup: the last entry with the key wins. *)
Fixpoint lookup (k : string) (d : list (string * LatchParameter))
  : option LatchParameter :=
  match d with
  | [] => None
  | (k', v) :: d' =>
      match lookup k d' with
      | Some v' => Some v'
      | None => if String.eqb k' k then Some v else None
      end
  end.

Definition keys : list string := map fst parameters.

Definition flow_params : list string :=
  List.concat (map section_params flow).

(** The parameter names of [trim_reads_task] and of [trim_galore], in
    signature order. *)
Definition signature : list string :=
  [ "input_forward";
    "input_reverse";
    "base_out";
    "output_directory";
    "fastqc_args";
    "adapter";
    "adapter2";
    "consider_already_trimmed";
    "max_length";
    "max_n";
    "clip_R1";
    "clip_R2";
    "three_prime_clip_R1";
    "three_prime_clip_R2";
    "hardtrim5";
    "hardtrim3";
    "quality";
    "base_quality_encoding";
    "fastqc";
    "adapter_sequence";
    "stringency";
    "error_rate";
    "gzip_output_files";
    "length";
    "trim_n";
    "report_file";
    "polyA";
    "implicon";
    "retain_unpaired";
    "length_1";
    "length_2" ].

End Metadata.

(** ** More vocabulary *)

(** [l] contains the tokens of [b] next to each other, in order. *)
Definition contains_block (l b : list string) : Prop :=
  exists pre post, l = pre ++ b ++ post.

(** The first six tokens of [_cmd]. *)
Definition cmd_head (a : Task.args) : list string :=
  [ "./TrimGalore-0.6.10/trim_galore";
    local_path (Task.input_forward a);
    local_path (Task.input_reverse a);
    "--paired"; "--output_dir"; "trim_galore_out" ].

(** The nine tokens of the quality arguments. *)
Definition quality_block (a : Task.args) : list string :=
  [ "--quality"; Py.str_int (Task.quality a);
    BaseQualityEncoding.value (Task.base_quality_encoding a);
    "--length"; Py.str_int (Task.length a);
    "--length_1"; Py.str_int (Task.length_1 a);
    "--length_2"; Py.str_int (Task.length_2 a) ].





(** An environment in which the child cannot be launched. *)
Definition launch_fails (e : exn) : environment := fun _ => Raise e.

(** A call with every optional parameter set to a truthy value and every
    flag switched on. *)
Definition args_full : Task.args :=
  {| Task.input_forward := fwd0;
     Task.input_reverse := rev0;
     Task.base_out := Some "sample";
     Task.output_directory := Some (mkLatchDir "/root/out" "latch:///runs/1/");
     Task.fastqc_args := Some "--nogroup -t 2";
     Task.adapter := Some "AGATCGGAAGAGC";
     Task.adapter2 := Some "AAATCAAAAAAAC";
     Task.consider_already_trimmed := Some 5%Z;
     Task.max_length := Some 75%Z;
     Task.max_n := Some Py.float_0_05;
     Task.clip_R1 := Some 3%Z;
     Task.clip_R2 := Some (-4)%Z;
     Task.three_prime_clip_R1 := Some 1%Z;
     Task.three_prime_clip_R2 := Some 2%Z;
     Task.hardtrim5 := Some 50%Z;
     Task.hardtrim3 := Some 40%Z;
     Task.quality := 0%Z;
     Task.base_quality_encoding := BaseQualityEncoding.phred64;
     Task.fastqc := true;
     Task.adapter_sequence := AdapterSequence.small_rna;
     Task.stringency := 0%Z;
     Task.error_rate := Py.float_0_05;
     Task.gzip_output_files := true;
     Task.length := 0%Z;
     Task.trim_n := true;
     Task.report_file := false;
     Task.polyA := true;
     Task.implicon := true;
     Task.retain_unpaired := true;
     Task.length_1 := 35%Z;
     Task.length_2 := 35%Z |}.

(** A call with every optional parameter present but falsy, and every flag
    switched off. *)
Definition args_falsy : Task.args :=
  {| Task.input_forward := fwd0;
     Task.input_reverse := rev0;
     Task.base_out := Some "";
     Task.output_directory := None;
     Task.fastqc_args := Some "";
     Task.adapter := Some "";
     Task.adapter2 := Some "";
     Task.consider_already_trimmed := Some 0%Z;
     Task.max_length := Some 0%Z;
     Task.max_n := Some (S754_zero true);
     Task.clip_R1 := Some 0%Z;
     Task.clip_R2 := Some 0%Z;
     Task.three_prime_clip_R1 := Some 0%Z;
     Task.three_prime_clip_R2 := Some 0%Z;
     Task.hardtrim5 := Some 0%Z;
     Task.hardtrim3 := Some 0%Z;
     Task.quality := 20%Z;
     Task.base_quality_encoding := BaseQualityEncoding.phred33;
     Task.fastqc := false;
     Task.adapter_sequence := AdapterSequence.auto;
     Task.stringency := 1%Z;
     Task.error_rate := Py.float_zero;
     Task.gzip_output_files := false;
     Task.length := 20%Z;
     Task.trim_n := false;
     Task.report_file := true;
     Task.polyA := false;
     Task.implicon := false;
     Task.retain_unpaired := false;
     Task.length_1 := 35%Z;
     Task.length_2 := 35%Z |}.

(** A call whose override has an empty remote path. *)
Definition args_empty_override : Task.args :=
  Task.with_output_directory (Some (mkLatchDir "/root/out" "")) args0.


(** Decision procedures on lists of names. *)
Fixpoint nodupb (l : list string) : bool :=
  match l with
  | [] => true
  | x :: r => negb (existsb (String.eqb x) r) && nodupb r
  end.

Definition inclb (l1 l2 : list string) : bool :=
  forallb (fun x => existsb (String.eqb x) l2) l1.

(** * Properties *)

(** ** The shape of [str] on numbers *)

Lemma string_of_uint_head (u : Decimal.uint) :
  exists c r, NilZero.string_of_uint u = String c r /\ is_digit c = true.
Proof.
  destruct u; simpl; eexists; eexists; split; reflexivity.
Qed.

Lemma str_int_numeric (z : Z) : numeric_like (Py.str_int z) = true.
Proof.
  unfold Py.str_int.
  destruct z as [|p|p]; simpl.
  - reflexivity.
  - destruct (string_of_uint_head (Pos.to_uint p)) as (c & r & E & D).
    unfold NilZero.string_of_int; rewrite E; simpl; now rewrite D.
  - destruct (string_of_uint_head (Pos.to_uint p)) as (c & r & E & D).
    unfold NilZero.string_of_int; rewrite E; simpl; now rewrite D.
Qed.

Lemma digits_of_head (d : Z) :
  exists c r, Py.digits_of d = c :: r /\ is_digit c = true.
Proof.
  unfold Py.digits_of.
  destruct (string_of_uint_head (N.to_uint (Z.to_N d))) as (c & r & E & D).
  rewrite E; simpl; eauto.
Qed.

Lemma format_digits_head (d0 : ascii) (rest : list ascii) (decpt : Z) :
  is_digit d0 = true ->
  exists c r, Py.format_digits d0 rest decpt = c :: r /\ is_digit c = true.
Proof.
  intros D; unfold Py.format_digits.
  destruct ((-4 <? decpt)%Z && (decpt <=? 16)%Z).
  - destruct (decpt <=? 0)%Z; [eexists; eexists; split; reflexivity|].
    destruct (decpt <? _)%Z; simpl; eauto.
  - destruct rest; eauto.
Qed.

Lemma repr_finite_head (m e : Z) :
  exists c r, Py.repr_finite m e = c :: r /\ is_digit c = true.
Proof.
  unfold Py.repr_finite.
  destruct (Py.shortest _ _ _ _ _) as [d k].
  destruct (digits_of_head d) as (c & r & E & D); rewrite E.
  now apply format_digits_head.
Qed.

Lemma str_float_numeric (f : Py.float) : numeric_like (Py.str_float f) = true.
Proof.
  destruct f as [[|]|[|]| |s m e]; try reflexivity.
  unfold Py.str_float.
  destruct (repr_finite_head (Zpos m) e) as (c & r & E & D); rewrite E.
  destruct s; simpl; rewrite D; reflexivity.
Qed.

(** A token that does not start like a number is not the [str] of one. *)
Lemma numeric_neq (s t : string) :
  numeric_like s = true -> numeric_like t = false -> String.eqb s t = false.
Proof.
  intros Hs Ht; destruct (String.eqb_spec s t); [congruence | reflexivity].
Qed.

Lemma Forall_firstn_of {A : Type} (P : A -> Prop) (n : nat) (l : list A) :
  Forall P l -> Forall P (firstn n l).
Proof.
  intros H; revert n; induction H; intros [|n]; simpl; auto.
Qed.

Lemma Forall_skipn_of {A : Type} (P : A -> Prop) (n : nat) (l : list A) :
  Forall P l -> Forall P (skipn n l).
Proof.
  intros H; revert n; induction H; intros [|n]; simpl; auto.
Qed.

(** ** Statements only add to the end of [_cmd] *)

Module Stmt.
Import Task.

Lemma extend_additive xs : additive (extend xs).
Proof. intros l; reflexivity. Qed.

Lemma append_additive x : additive (append x).
Proof. intros l; reflexivity. Qed.

Lemma If_additive c s : additive s -> additive (If c s).
Proof.
  intros H l; unfold If; destruct c; [apply H | now rewrite app_nil_r].
Qed.

Lemma IfElse_additive c s1 s2 :
  additive s1 -> additive s2 -> additive (IfElse c s1 s2).
Proof. intros H1 H2 l; unfold IfElse; destruct c; [apply H1 | apply H2]. Qed.

Lemma IfTruthy_additive {A} (truthy : A -> bool) x (s : A -> stmt) :
  (forall v, additive (s v)) -> additive (IfTruthy truthy x s).
Proof.
  intros H l; unfold IfTruthy.
  destruct x as [v|]; [destruct (truthy v)|];
    try apply H; now rewrite app_nil_r.
Qed.

Lemma block_additive ss l :
  Forall additive ss -> block ss l = l ++ List.concat (map added ss).
Proof.
  intros H; revert l; induction H as [|s ss Hs _ IH]; intros l; simpl.
  - now rewrite app_nil_r.
  - unfold block in *; simpl. rewrite IH, (Hs l), <- app_assoc. reflexivity.
Qed.

Lemma cmd_stmts_additive a : Forall additive (cmd_stmts a).
Proof.
  unfold cmd_stmts.
  repeat (apply Forall_cons || apply Forall_nil);
    repeat first [ apply extend_additive | apply append_additive
                 | apply If_additive | apply IfElse_additive
                 | apply IfTruthy_additive; intros ].
Qed.

(** [_cmd] is the concatenation of what each statement adds. *)
Lemma trim_reads_cmd_added a :
  trim_reads_cmd a = List.concat (map added (cmd_stmts a)).
Proof.
  unfold trim_reads_cmd. now rewrite block_additive by apply cmd_stmts_additive.
Qed.

End Stmt.

(** ** Counting tokens *)

Lemma count_app t l1 l2 : count t (l1 ++ l2) = count t l1 + count t l2.
Proof. induction l1 as [|x l1 IH]; simpl; [reflexivity | rewrite IH; lia]. Qed.

Lemma count_cons t x l :
  count t (x :: l) = (if String.eqb x t then 1 else 0) + count t l.
Proof. reflexivity. Qed.

Lemma count_nil t : count t [] = 0.
Proof. reflexivity. Qed.

Lemma count_In t l : In t l <-> 0 < count t l.
Proof.
  induction l as [|x l IH]; simpl; [lia|].
  destruct (String.eqb_spec x t); rewrite IH; intuition lia.
Qed.

Lemma count_zero_not_In t l : count t l = 0 <-> ~ In t l.
Proof. rewrite count_In; lia. Qed.

Module Count.
Import Task Stmt.

Section Token.
Variable t : string.
Hypothesis t_not_numeric : numeric_like t = false.
Hypothesis t_not_quoted : starts_with_dquote t = false.

Lemma str_int_neq z : String.eqb (Py.str_int z) t = false.
Proof. apply numeric_neq; [apply str_int_numeric | assumption]. Qed.

Lemma str_float_neq f : String.eqb (Py.str_float f) t = false.
Proof. apply numeric_neq; [apply str_float_numeric | assumption]. Qed.

Lemma quoted_neq v : String.eqb (dquote ++ v ++ dquote)%string t = false.
Proof.
  destruct (String.eqb_spec (dquote ++ v ++ dquote)%string t) as [E|];
    [|reflexivity].
  subst t; discriminate t_not_quoted.
Qed.

Lemma count_extend xs : count t (added (extend xs)) = count t xs.
Proof. reflexivity. Qed.

Lemma count_append x : count t (added (append x)) = flag t x.
Proof. unfold Task.added, append, flag; simpl; lia. Qed.

Lemma count_If c x :
  count t (added (If c (append x))) = if c then flag t x else 0.
Proof. destruct c; [apply count_append | reflexivity]. Qed.

Lemma count_IfElse c x y :
  count t (added (IfElse c (append x) (append y)))
  = if c then flag t x else flag t y.
Proof. destruct c; apply count_append. Qed.

Lemma count_If_float c f v :
  count t (added (If c (extend [f; Py.str_float v])))
  = if c then flag t f else 0.
Proof.
  destruct c; [|reflexivity].
  unfold added, If, extend, flag; simpl. rewrite str_float_neq. lia.
Qed.

Lemma count_IfTruthy_int f o :
  count t (added (IfTruthy Py.truthy_int o
                    (fun v => extend [f; Py.str_int v])))
  = if Py.truthy_opt Py.truthy_int o then flag t f else 0.
Proof.
  unfold added, IfTruthy, extend, flag.
  destruct o as [v|]; simpl; [|reflexivity].
  destruct (Py.truthy_int v); simpl; [|reflexivity].
  rewrite str_int_neq. lia.
Qed.

Lemma count_IfTruthy_float f o :
  count t (added (IfTruthy Py.truthy_float o
                    (fun v => extend [f; Py.str_float v])))
  = if Py.truthy_opt Py.truthy_float o then flag t f else 0.
Proof.
  unfold added, IfTruthy, extend, flag.
  destruct o as [v|]; simpl; [|reflexivity].
  destruct (Py.truthy_float v); simpl; [|reflexivity].
  rewrite str_float_neq. lia.
Qed.

Lemma count_IfTruthy_str f o :
  count t (added (IfTruthy Py.truthy_str o (fun v => extend [f; v])))
  = (if Py.truthy_opt Py.truthy_str o then flag t f else 0)
    + count t (passed o).
Proof.
  unfold added, IfTruthy, extend, flag, passed.
  destruct o as [v|]; simpl; [|reflexivity].
  destruct (Py.truthy_str v); simpl; lia.
Qed.

Lemma count_IfTruthy_quoted f o :
  count t (added (IfTruthy Py.truthy_str o
                    (fun v => extend [f; (dquote ++ v ++ dquote)%string])))
  = if Py.truthy_opt Py.truthy_str o then flag t f else 0.
Proof.
  unfold added, IfTruthy, extend, flag.
  destruct o as [v|]; [|reflexivity].
  cbn [Py.truthy_opt]. destruct (Py.truthy_str v); [|reflexivity].
  cbn [count List.app]. rewrite quoted_neq. lia.
Qed.

(** The occurrences of [t] in [_cmd]: those among the caller's
    strings, and the flags the statements add. *)
Lemma count_cmd a :
  count t (trim_reads_cmd a)
  = count t (user_strings a)
    + (flag t "./TrimGalore-0.6.10/trim_galore" + flag t "--paired"
       + flag t "--output_dir" + flag t local_dir
       + (if Py.truthy_opt Py.truthy_str (base_out a)
          then flag t "--basename" else 0)
       + (if gzip_output_files a then flag t "--gzip" else flag t "--dont_gzip")
       + (if retain_unpaired a then flag t "--retain_unpaired" else 0)
       + flag t "--quality"
       + flag t (BaseQualityEncoding.value (base_quality_encoding a))
       + flag t "--length" + flag t "--length_1" + flag t "--length_2"
       + (if Py.truthy_opt Py.truthy_int (max_length a)
          then flag t "--max_length" else 0)
       + (if Py.truthy_opt Py.truthy_float (max_n a)
          then flag t "--max_n" else 0)
       + (if trim_n a then flag t "--trim-n" else 0)
       + (if AdapterSequence.neq (adapter_sequence a) AdapterSequence.auto
          then flag t (AdapterSequence.value (adapter_sequence a)) else 0)
       + (if Py.truthy_float (error_rate a) then flag t "-e" else 0)
       + flag t "--stringency"
       + (if Py.truthy_opt Py.truthy_str (adapter a)
          then flag t "--adapter" else 0)
       + (if Py.truthy_opt Py.truthy_str (adapter2 a)
          then flag t "--adapter2" else 0)
       + (if Py.truthy_opt Py.truthy_int (consider_already_trimmed a)
          then flag t "--consider_already_trimmed" else 0)
       + (if fastqc a then flag t "--fastqc" else 0)
       + (if Py.truthy_opt Py.truthy_str (fastqc_args a)
          then flag t "--fastqc_args" else 0)
       + (if negb (report_file a) then flag t "--no_report_file" else 0)
       + (if Py.truthy_opt Py.truthy_int (hardtrim5 a)
          then flag t "--hardtrim5" else 0)
       + (if Py.truthy_opt Py.truthy_int (hardtrim3 a)
          then flag t "--hardtrim3" else 0)
       + (if Py.truthy_opt Py.truthy_int (clip_R1 a)
          then flag t "--clip_R1" else 0)
       + (if Py.truthy_opt Py.truthy_int (clip_R2 a)
          then flag t "--clip_R2" else 0)
       + (if polyA a then flag t "--polyA" else 0)
       + (if implicon a then flag t "--implicon" else 0)
       + (if Py.truthy_opt Py.truthy_int (three_prime_clip_R1 a)
          then flag t "--three_prime_clip_R1" else 0)
       + (if Py.truthy_opt Py.truthy_int (three_prime_clip_R2 a)
          then flag t "--three_prime_clip_R2" else 0)).
Proof.
  rewrite trim_reads_cmd_added. unfold cmd_stmts, user_strings.
  cbn [map List.concat].
  rewrite !count_app, !count_extend, !count_If, count_IfElse, count_If_float,
    !count_IfTruthy_int, count_IfTruthy_float, count_IfTruthy_quoted,
    !count_IfTruthy_str, !count_cons, !count_nil, !str_int_neq.
  fold (flag t "./TrimGalore-0.6.10/trim_galore"). fold (flag t "--paired").
  fold (flag t "--output_dir"). fold (flag t local_dir). fold (flag t "--quality").
  fold (flag t (BaseQualityEncoding.value (base_quality_encoding a))).
  fold (flag t "--length"). fold (flag t "--length_1"). fold (flag t "--length_2").
  fold (flag t "--stringency").
  lia.
Qed.

End Token.

End Count.

Lemma if_same {A : Type} (b : bool) (x : A) : (if b then x else x) = x.
Proof. destruct b; reflexivity. Qed.

(** Evaluate the flags of [Count.count_cmd] against a concrete token. *)
Ltac eval_flags :=
  unfold flag, Task.local_dir;
  repeat match goal with
    | |- context [Task.base_quality_encoding ?a] =>
        destruct (Task.base_quality_encoding a)
    | |- context [Task.adapter_sequence ?a] =>
        destruct (Task.adapter_sequence a)
    end;
  cbn [BaseQualityEncoding.value AdapterSequence.value AdapterSequence.neq];
  repeat match goal with
    | |- context [String.eqb ?x ?y] =>
        let b := eval vm_compute in (String.eqb x y) in
        change (String.eqb x y) with b
    end;
  cbv iota;
  repeat match goal with
    | |- context [if ?c then 0 else 0] => rewrite (if_same c 0)
    end.

Example str_float_0_01 : Py.str_float Py.float_0_01 = "0.01".
Proof. vm_compute. reflexivity. Qed.

Example str_float_0_05 : Py.str_float Py.float_0_05 = "0.05".
Proof. vm_compute. reflexivity. Qed.

(** [str] on a few more floats: exponent notation below [1e-4] and from
    [1e16] on, the smallest subnormal, a tie between two shortest
    candidates, the largest float, and the special values. *)
Example str_float_samples :
  map Py.str_float
    [ Py.float_of_Z 1;
      S754_finite false 5902958103587057 (-69);   (* 1e-05 *)
      S754_finite false 7378697629483821 (-66);   (* 0.0001 *)
      Py.float_of_Z 1000000000000000;
      Py.float_of_Z 10000000000000000;
      S754_finite false 1 (-1074);
      S754_finite false 4503599627370497 (-2);    (* 2**50 + 0.25 *)
      S754_finite false 9007199254740991 971;
      S754_finite true 6755399441055744 (-52);    (* -1.5 *)
      S754_zero true; S754_infinity true; S754_nan ]
  = [ "1.0"; "1e-05"; "0.0001"; "1000000000000000.0"; "1e+16"; "5e-324";
      "1125899906842624.2"; "1.7976931348623157e+308"; "-1.5";
      "-0.0"; "-inf"; "nan" ].
Proof. vm_compute. reflexivity. Qed.

Example float_literals_valid :
  Py.float_valid Py.float_0_01 = true /\ Py.float_valid Py.float_0_05 = true.
Proof. split; reflexivity. Qed.

(** The literals are the floats nearest to 1/100 and 5/100. *)
Example float_0_01_nearest :
  SFdiv Py.prec Py.emax (Py.float_of_Z 1) (Py.float_of_Z 100) = Py.float_0_01.
Proof. vm_compute. reflexivity. Qed.

Example float_0_05_nearest :
  SFdiv Py.prec Py.emax (Py.float_of_Z 5) (Py.float_of_Z 100) = Py.float_0_05.
Proof. vm_compute. reflexivity. Qed.

(** ** The default command line *)

(** C1, as stated, fails: with every parameter at its default the list has
    three more tokens than the specification's list, [-e 0.01] (the default
    [error_rate = 0.01] is truthy) and [--fastqc] (the default
    [fastqc = True]). *)
Lemma defaults_not_spec_list :
  Task.trim_reads_cmd args0 <> spec_default_cmd fwd0 rev0
  /\ In "-e" (Task.trim_reads_cmd args0)
  /\ In "--fastqc" (Task.trim_reads_cmd args0)
  /\ ~ In "-e" (spec_default_cmd fwd0 rev0)
  /\ ~ In "--fastqc" (spec_default_cmd fwd0 rev0).
Proof.
  split; [|split; [|split; [|split]]].
  - intros H. apply (f_equal (@List.length string)) in H.
    vm_compute in H. discriminate H.
  - apply count_In. vm_compute. lia.
  - apply count_In. vm_compute. lia.
  - apply count_zero_not_In. vm_compute. reflexivity.
  - apply count_zero_not_In. vm_compute. reflexivity.
Qed.

(** C1 (amended): with only the two input files set and every other
    parameter at its default, [_cmd] is exactly the tool, the two paths,
    [--paired --output_dir trim_galore_out --dont_gzip --retain_unpaired
    --quality 20 --phred33 --length 20 --length_1 35 --length_2 35
    -e 0.01 --stringency 1 --fastqc]. *)
Theorem trim_reads_cmd_defaults (fwd rev : LatchFile) :
  Task.trim_reads_cmd (Task.defaults fwd rev)
  = [ "./TrimGalore-0.6.10/trim_galore"; local_path fwd; local_path rev;
      "--paired"; "--output_dir"; "trim_galore_out"; "--dont_gzip";
      "--retain_unpaired"; "--quality"; "20"; "--phred33"; "--length"; "20";
      "--length_1"; "35"; "--length_2"; "35"; "-e"; "0.01";
      "--stringency"; "1"; "--fastqc" ].
Proof.
  destruct fwd as [f], rev as [r]. vm_compute. reflexivity.
Qed.

(** With [adapter_sequence = nextera] and [error_rate = 0.05]. *)
Example trim_reads_cmd_nextera_0_05 :
  Task.trim_reads_cmd (Task.with_error_rate Py.float_0_05 args_nextera)
  = [ "./TrimGalore-0.6.10/trim_galore"; "/root/reads_1.fq";
      "/root/reads_2.fq"; "--paired"; "--output_dir"; "trim_galore_out";
      "--dont_gzip"; "--retain_unpaired"; "--quality"; "20"; "--phred33";
      "--length"; "20"; "--length_1"; "35"; "--length_2"; "35"; "--nextera";
      "-e"; "0.05"; "--stringency"; "1"; "--fastqc" ].
Proof. vm_compute. reflexivity. Qed.

(** ** Compression flags *)

Lemma count_gzip (a : Task.args) :
  count "--gzip" (Task.trim_reads_cmd a)
  = count "--gzip" (user_strings a)
    + (if Task.gzip_output_files a then 1 else 0).
Proof.
  rewrite (Count.count_cmd "--gzip" eq_refl eq_refl a). eval_flags.
  all: destruct (Task.gzip_output_files a); lia.
Qed.

Lemma count_dont_gzip (a : Task.args) :
  count "--dont_gzip" (Task.trim_reads_cmd a)
  = count "--dont_gzip" (user_strings a)
    + (if Task.gzip_output_files a then 0 else 1).
Proof.
  rewrite (Count.count_cmd "--dont_gzip" eq_refl eq_refl a). eval_flags.
  all: destruct (Task.gzip_output_files a); lia.
Qed.

(** C2, as stated, fails: with [base_out = "--gzip"] and
    [gzip_output_files = False] both tokens are in [_cmd]. *)
Lemma gzip_both_tokens :
  Task.gzip_output_files args_base_out_gzip = false
  /\ In "--gzip" (Task.trim_reads_cmd args_base_out_gzip)
  /\ In "--dont_gzip" (Task.trim_reads_cmd args_base_out_gzip)
  /\ ~ gzip_exclusive args_base_out_gzip.
Proof.
  split; [reflexivity|]. split; [|split].
  - apply count_In. vm_compute. lia.
  - apply count_In. vm_compute. lia.
  - unfold gzip_exclusive. vm_compute. intros [H _]. discriminate H.
Qed.

(** C2 (amended): when none of the caller's strings copied into [_cmd]
    (the two input paths, [base_out], [adapter], [adapter2]) is itself
    [--gzip] or [--dont_gzip], exactly one of the two tokens occurs in
    [_cmd], once: [--gzip] when [gzip_output_files] is true, [--dont_gzip]
    otherwise. *)
Theorem gzip_exclusive_clean (a : Task.args) :
  ~ In "--gzip" (user_strings a) ->
  ~ In "--dont_gzip" (user_strings a) ->
  gzip_exclusive a.
Proof.
  intros H1 H2. apply count_zero_not_In in H1, H2.
  unfold gzip_exclusive; cbv zeta.
  rewrite count_gzip, count_dont_gzip, H1, H2.
  destruct (Task.gzip_output_files a); split; reflexivity.
Qed.

(** The amended C2 on a call with [gzip_output_files = True]. *)
Lemma gzip_exclusive_clean_witness :
  ~ In "--gzip" (user_strings args_gzip)
  /\ ~ In "--dont_gzip" (user_strings args_gzip)
  /\ gzip_exclusive args_gzip.
Proof.
  assert (H1 : ~ In "--gzip" (user_strings args_gzip))
    by (apply count_zero_not_In; vm_compute; reflexivity).
  assert (H2 : ~ In "--dont_gzip" (user_strings args_gzip))
    by (apply count_zero_not_In; vm_compute; reflexivity).
  exact (conj H1 (conj H2 (gzip_exclusive_clean args_gzip H1 H2))).
Defined.

(** ** Adapter family *)

Lemma count_adapter_family (a : Task.args) (t : string) :
  In t adapter_family_tokens ->
  count t (Task.trim_reads_cmd a)
  = count t (user_strings a) + adapter_flag (Task.adapter_sequence a) t.
Proof.
  unfold adapter_family_tokens, adapter_flag.
  intros [<-|[<-|[<-|[<-|[]]]]];
    rewrite Count.count_cmd by reflexivity; eval_flags; lia.
Qed.

(** C3, as stated, fails: with [adapter_sequence = auto] and
    [base_out = "--nextera"] an adapter-family token is in [_cmd]; with
    [adapter_sequence = nextera] and the same [base_out] the token occurs
    twice. *)
Lemma adapter_token_from_base_out :
  Task.adapter_sequence args_base_out_nextera = AdapterSequence.auto
  /\ In "--nextera" (Task.trim_reads_cmd args_base_out_nextera)
  /\ ~ adapter_flag_exact args_base_out_nextera
  /\ count "--nextera"
       (Task.trim_reads_cmd
          (Task.with_adapter_sequence AdapterSequence.nextera
             args_base_out_nextera)) = 2.
Proof.
  split; [reflexivity|]. split; [|split].
  - apply count_In. vm_compute. lia.
  - intros H. specialize (H "--nextera"). vm_compute in H.
    assert (E : 1 = 0) by (apply H; auto). discriminate E.
  - vm_compute. reflexivity.
Qed.

(** C3 (amended): when none of the caller's strings copied into [_cmd]
    (the two input paths, [base_out], [adapter], [adapter2]) is itself an
    adapter-family token, then with [adapter_sequence = auto] no
    adapter-family token occurs in [_cmd], and with each of the other four
    members its own token occurs exactly once and no other adapter-family
    token occurs. *)
Theorem adapter_flag_exact_clean (a : Task.args) :
  (forall t, In t adapter_family_tokens -> ~ In t (user_strings a)) ->
  adapter_flag_exact a.
Proof.
  intros H t Ht. rewrite count_adapter_family by assumption.
  apply H, count_zero_not_In in Ht. rewrite Ht. reflexivity.
Qed.

Lemma no_family_token_args0 (e : AdapterSequence.t) (t : string) :
  In t adapter_family_tokens ->
  ~ In t (user_strings (Task.with_adapter_sequence e args0)).
Proof.
  unfold adapter_family_tokens.
  intros [<-|[<-|[<-|[<-|[]]]]]; apply count_zero_not_In; reflexivity.
Qed.

(** The amended C3 on a call with [adapter_sequence = nextera]. *)
Lemma adapter_flag_exact_clean_witness :
  (forall t, In t adapter_family_tokens -> ~ In t (user_strings args_nextera))
  /\ adapter_flag_exact args_nextera
  /\ count "--nextera" (Task.trim_reads_cmd args_nextera) = 1
  /\ count "--illumina" (Task.trim_reads_cmd args_nextera) = 0.
Proof.
  pose (H := no_family_token_args0 AdapterSequence.nextera).
  pose (E := adapter_flag_exact_clean args_nextera H).
  refine (conj H (conj E (conj _ _))).
  - apply E. simpl. auto.
  - apply E. simpl. auto.
Defined.

(** The five members, on a call with no adapter-family token among the
    caller's strings. *)
Example adapter_tokens_args0 :
  map (fun e =>
         map (fun t => count t (Task.trim_reads_cmd
                                  (Task.with_adapter_sequence e args0)))
             adapter_family_tokens)
      [AdapterSequence.auto; AdapterSequence.illumina;
       AdapterSequence.stranded_illumina; AdapterSequence.nextera;
       AdapterSequence.small_rna]
  = [[0; 0; 0; 0]; [1; 0; 0; 0]; [0; 1; 0; 0]; [0; 0; 1; 0]; [0; 0; 0; 1]].
Proof. vm_compute. reflexivity. Qed.

(** ** Truthiness decides what is emitted *)

Lemma cmd_max_n (a : Task.args) :
  Task.trim_reads_cmd a
  = before_max_n a
      ++ Task.added (Task.IfTruthy Py.truthy_float (Task.max_n a)
                       (fun v => Task.extend ["--max_n"; Py.str_float v]))
      ++ after_max_n a.
Proof.
  unfold before_max_n, after_max_n.
  rewrite Stmt.trim_reads_cmd_added.
  rewrite !Stmt.block_additive.
  - unfold Task.cmd_stmts. cbn [firstn skipn map List.concat].
    rewrite <- !app_assoc. reflexivity.
  - apply Forall_skipn_of, Stmt.cmd_stmts_additive.
  - apply Forall_firstn_of, Stmt.cmd_stmts_additive.
Qed.

Lemma emits_pair_In (l : list string) (f v : string) :
  emits_pair l f v -> In f l.
Proof.
  intros (pre & post & ->). apply in_or_app. right. left. reflexivity.
Qed.

(** C4, as stated, fails: with [max_n = 0.0] there is no [--max_n] in
    [_cmd], which is the same list as with [max_n = None]. *)
Lemma max_n_zero_not_emitted :
  Task.max_n args_max_n_zero = Some Py.float_zero
  /\ ~ In "--max_n" (Task.trim_reads_cmd args_max_n_zero)
  /\ Task.trim_reads_cmd args_max_n_zero = Task.trim_reads_cmd args0
  /\ ~ max_n_emitted_when_present args_max_n_zero.
Proof.
  assert (N : ~ In "--max_n" (Task.trim_reads_cmd args_max_n_zero))
    by (apply count_zero_not_In; vm_compute; reflexivity).
  split; [reflexivity|]. split; [exact N|]. split.
  - vm_compute. reflexivity.
  - intros H. apply N. eapply emits_pair_In. apply H. reflexivity.
Qed.

(** C4 (amended): a present [max_n] is emitted by truthiness, not by
    not-None: when the value is truthy (anything but [0.0] and [-0.0]),
    [_cmd] contains [--max_n] followed by [str(max_n)]; when it is zero,
    [_cmd] is the list built with [max_n = None]. *)
Theorem max_n_emitted_when_truthy (a : Task.args) (f : Py.float) :
  Task.max_n a = Some f ->
  if Py.truthy_float f
  then emits_pair (Task.trim_reads_cmd a) "--max_n" (Py.str_float f)
  else Task.trim_reads_cmd a = Task.trim_reads_cmd (Task.with_max_n None a).
Proof.
  intros H. rewrite (cmd_max_n a), H.
  destruct (Py.truthy_float f) eqn:T.
  - exists (before_max_n a), (after_max_n a).
    unfold Task.added, Task.IfTruthy. rewrite T. reflexivity.
  - rewrite (cmd_max_n (Task.with_max_n None a)).
    unfold Task.added, Task.IfTruthy. rewrite T. reflexivity.
Qed.

(** The amended C4 on a call with [max_n = 0.05]. *)
Lemma max_n_emitted_when_truthy_witness :
  Task.max_n args_max_n_0_05 = Some Py.float_0_05
  /\ emits_pair (Task.trim_reads_cmd args_max_n_0_05) "--max_n" "0.05".
Proof.
  split; [reflexivity|].
  exact (max_n_emitted_when_truthy args_max_n_0_05 Py.float_0_05 eq_refl).
Defined.

Lemma count_clip_R1 (a : Task.args) :
  count "--clip_R1" (Task.trim_reads_cmd a)
  = count "--clip_R1" (user_strings a)
    + (if Py.truthy_opt Py.truthy_int (Task.clip_R1 a) then 1 else 0).
Proof.
  rewrite (Count.count_cmd "--clip_R1" eq_refl eq_refl a). eval_flags.
  all: destruct (Py.truthy_opt Py.truthy_int (Task.clip_R1 a)); lia.
Qed.

Lemma count_e (a : Task.args) :
  count "-e" (Task.trim_reads_cmd a)
  = count "-e" (user_strings a)
    + (if Py.truthy_float (Task.error_rate a) then 1 else 0).
Proof.
  rewrite (Count.count_cmd "-e" eq_refl eq_refl a). eval_flags.
  all: destruct (Py.truthy_float (Task.error_rate a)); lia.
Qed.

(** C5: a numeric parameter that is exactly zero adds no flag.  With
    [clip_R1 = 0], [_cmd] is the list built with [clip_R1 = None], and the
    only occurrences of [--clip_R1] in it are among the caller's own
    strings; with [error_rate] zero ([0.0] or [-0.0]) the only occurrences
    of [-e] in [_cmd] are among the caller's own strings.  With a non-zero
    value there is one more occurrence: truthiness decides. *)
Theorem zero_adds_no_flag (a : Task.args) :
  (Task.trim_reads_cmd (Task.with_clip_R1 (Some 0%Z) a)
   = Task.trim_reads_cmd (Task.with_clip_R1 None a)
   /\ count "--clip_R1" (Task.trim_reads_cmd (Task.with_clip_R1 (Some 0%Z) a))
      = count "--clip_R1" (user_strings a))
  /\ (forall s : bool,
        count "-e" (Task.trim_reads_cmd (Task.with_error_rate (S754_zero s) a))
        = count "-e" (user_strings a))
  /\ (forall z : Z, z <> 0%Z ->
        count "--clip_R1" (Task.trim_reads_cmd (Task.with_clip_R1 (Some z) a))
        = count "--clip_R1" (user_strings a) + 1)
  /\ (forall f : Py.float, Py.truthy_float f = true ->
        count "-e" (Task.trim_reads_cmd (Task.with_error_rate f a))
        = count "-e" (user_strings a) + 1).
Proof.
  split; [split|split; [|split]].
  - reflexivity.
  - rewrite count_clip_R1. cbn. change (user_strings _) with (user_strings a).
    lia.
  - intros s. rewrite count_e. cbn.
    change (user_strings _) with (user_strings a). lia.
  - intros z Hz. rewrite count_clip_R1.
    change (user_strings _) with (user_strings a).
    cbn [Task.clip_R1 Task.with_clip_R1 Py.truthy_opt]. unfold Py.truthy_int.
    destruct (Z.eqb_spec z 0); [contradiction | reflexivity].
  - intros f Hf. rewrite count_e.
    change (user_strings _) with (user_strings a).
    cbn [Task.error_rate Task.with_error_rate]. rewrite Hf. reflexivity.
Qed.

(** C5 on the call with only the two input files set: zero gives no
    [--clip_R1] and no [-e], a non-zero value gives one. *)
Lemma zero_adds_no_flag_witness :
  count "--clip_R1" (Task.trim_reads_cmd (Task.with_clip_R1 (Some 7%Z) args0))
  = 1
  /\ count "-e" (Task.trim_reads_cmd (Task.with_error_rate Py.float_0_05 args0))
     = 1
  /\ ~ In "--clip_R1" (Task.trim_reads_cmd (Task.with_clip_R1 (Some 0%Z) args0))
  /\ ~ In "-e" (Task.trim_reads_cmd (Task.with_error_rate Py.float_zero args0)).
Proof.
  destruct (zero_adds_no_flag args0) as [[_ C0] [E0 [C1 E1]]].
  split; [|split; [|split]].
  - apply (C1 7%Z). discriminate.
  - apply (E1 Py.float_0_05). reflexivity.
  - apply count_zero_not_In. etransitivity; [exact C0 | reflexivity].
  - apply count_zero_not_In. etransitivity; [exact (E0 false) | reflexivity].
Defined.


(** A non-empty string does add its flag. *)
Example base_out_nonempty :
  Task.trim_reads_cmd (Task.with_base_out (Some "sample") args0)
  = firstn 6 (Task.trim_reads_cmd args0)
      ++ ["--basename"; "sample"] ++ skipn 6 (Task.trim_reads_cmd args0).
Proof. vm_compute. reflexivity. Qed.

(** ** The destination *)

Lemma str_last_snoc (s : string) (c : ascii) :
  str_last (s ++ String c "") = Ok c.
Proof.
  induction s as [|x s IH]; [reflexivity|].
  change (str_last (String x (s ++ String c "")) = Ok c).
  destruct (s ++ String c "")%string eqn:E; [|exact IH].
  destruct s; discriminate E.
Qed.

Lemma str_drop_last_snoc (s : string) (c : ascii) :
  str_drop_last (s ++ String c "") = s.
Proof.
  induction s as [|x s IH]; [reflexivity|].
  change (str_drop_last (String x (s ++ String c "")) = String x s).
  destruct (s ++ String c "")%string eqn:E.
  - destruct s; discriminate E.
  - simpl. simpl in IH. rewrite IH. reflexivity.
Qed.

Lemma _fmt_dir_snoc (s : string) (c : ascii) :
  _fmt_dir (s ++ String c "")
  = Ok (if Ascii.eqb c "/" then s else (s ++ String c "")%string).
Proof.
  unfold _fmt_dir. rewrite str_last_snoc, str_drop_last_snoc.
  destruct (Ascii.eqb c "/"); reflexivity.
Qed.

(** The empty string has no last character. *)
Lemma _fmt_dir_empty : _fmt_dir "" = Raise IndexError.
Proof. reflexivity. Qed.

(** C6: [_fmt_dir] strips exactly one trailing ["/"] from an override that
    ends in one and returns an override that ends in any other character
    unchanged; the destination is [_fmt_dir] of the override's remote path
    when an override is given and the fixed default string when none is. *)
Theorem destination_resolution (a : Task.args) :
  (forall s : string, _fmt_dir (s ++ "/") = Ok s)
  /\ (forall (s : string) (c : ascii), c <> "/"%char ->
        _fmt_dir (s ++ String c "") = Ok (s ++ String c "")%string)
  /\ _fmt_dir "s3://bucket/path/" = Ok "s3://bucket/path"
  /\ _fmt_dir "s3://bucket/path" = Ok "s3://bucket/path"
  /\ _fmt_dir "s3://bucket/path//" = Ok "s3://bucket/path/"
  /\ (forall d : LatchDir,
        Task.latch_out_location (Task.with_output_directory (Some d) a)
        = _fmt_dir (remote_source d))
  /\ Task.latch_out_location (Task.with_output_directory None a)
     = Ok Task.default_location.
Proof.
  split; [|split; [|repeat split]].
  - intros s. apply (_fmt_dir_snoc s "/").
  - intros s c Hc. rewrite _fmt_dir_snoc.
    destruct (Ascii.eqb_spec c "/"); [contradiction | reflexivity].
Qed.

(** C6 on an override that ends in ["h"]. *)
Lemma destination_resolution_witness :
  "h"%char <> "/"%char
  /\ _fmt_dir ("s3://bucket/pat" ++ String "h" "") = Ok "s3://bucket/path".
Proof.
  assert (H : "h"%char <> "/"%char) by discriminate.
  exact (conj H (proj1 (proj2 (destination_resolution args0))
                   "s3://bucket/pat" "h"%char H)).
Defined.

(** ** Running the task *)

Lemma _fmt_dir_nonempty (s : string) :
  s <> "" -> exists loc, _fmt_dir s = Ok loc.
Proof.
  intros H.
  assert (E : exists s' c, s = (s' ++ String c "")%string).
  { induction s as [|x s IH]; [contradiction|].
    destruct s as [|y s].
    - exists "", x. reflexivity.
    - destruct IH as (s' & c & E); [discriminate|].
      exists (String x s'), c. simpl. rewrite <- E. reflexivity. }
  destruct E as (s' & c & ->). rewrite _fmt_dir_snoc. eauto.
Qed.

Lemma latch_out_location_ok (a : Task.args) :
  override_nonempty a -> exists loc, Task.latch_out_location a = Ok loc.
Proof.
  unfold override_nonempty, Task.latch_out_location.
  destruct (Task.output_directory a) as [d|].
  - apply _fmt_dir_nonempty.
  - eauto.
Qed.

(** What a run of the task gives once the child has completed: the exit
    status and the captured output are not used. *)
Lemma exec_trim_reads_task (env : environment) (a : Task.args)
  (code : Z) (out : string) (log : list (list string)) :
  env (Task.trim_reads_cmd a) = Ok (code, out) ->
  exec env (Task.trim_reads_task a) log
  = (log ++ [Task.trim_reads_cmd a],
     match Task.latch_out_location a with
     | Ok loc => Ok (mkLatchDir Task.local_dir loc)
     | Raise e => Raise e
     end).
Proof.
  intros H. unfold Task.trim_reads_task. cbn [exec]. rewrite H.
  destruct (Task.latch_out_location a); reflexivity.
Qed.

(** The argument list launched does not depend on the environment. *)
Lemma exec_log (env : environment) (a : Task.args) (log : list (list string)) :
  fst (exec env (Task.trim_reads_task a) log) = log ++ [Task.trim_reads_cmd a].
Proof.
  unfold Task.trim_reads_task. cbn [exec].
  destruct (env (Task.trim_reads_cmd a)) as [[code out]|e]; [|reflexivity].
  destruct (Task.latch_out_location a); reflexivity.
Qed.

(** C7: the argument list is a function of the parameters alone: two
    invocations of the task on the same parameters launch the same list,
    token for token, whatever the environment answers to either. *)
Theorem cmd_deterministic (a : Task.args) (env1 env2 : environment) :
  fst (exec env2 (Task.trim_reads_task a)
         (fst (exec env1 (Task.trim_reads_task a) [])))
  = [Task.trim_reads_cmd a; Task.trim_reads_cmd a].
Proof.
  rewrite !exec_log. reflexivity.
Qed.

(** C8: the exit status is not inspected.  Whatever status and output the
    child completes with, the task launches [_cmd], resolves the
    destination and returns the [LatchDir] of [trim_galore_out] and that
    destination. *)
Theorem exit_status_ignored (env : environment) (a : Task.args)
  (code : Z) (out : string) :
  env (Task.trim_reads_cmd a) = Ok (code, out) ->
  override_nonempty a ->
  exists loc,
    Task.latch_out_location a = Ok loc
    /\ exec env (Task.trim_reads_task a) []
       = ([Task.trim_reads_cmd a], Ok (mkLatchDir "trim_galore_out" loc)).
Proof.
  intros He Ho. destruct (latch_out_location_ok a Ho) as [loc E].
  exists loc. split; [exact E|].
  rewrite (exec_trim_reads_task env a code out [] He), E. reflexivity.
Qed.

(** C8 on a call with an override and a child that exits with status 1. *)
Lemma exit_status_ignored_witness :
  completes 1 "" (Task.trim_reads_cmd args_override) = Ok (1%Z, "")
  /\ override_nonempty args_override
  /\ exists loc,
       Task.latch_out_location args_override = Ok loc
       /\ exec (completes 1 "") (Task.trim_reads_task args_override) []
          = ([Task.trim_reads_cmd args_override],
             Ok (mkLatchDir "trim_galore_out" loc)).
Proof.
  assert (Ho : override_nonempty args_override) by (simpl; discriminate).
  exact (conj eq_refl
           (conj Ho (exit_status_ignored (completes 1 "") args_override
                       1%Z "" eq_refl Ho))).
Defined.

(** A non-zero and a zero exit status give the same result. *)
Example exit_status_1_and_0 :
  exec (completes 1 "") (Task.trim_reads_task args_override) []
  = exec (completes 0 "") (Task.trim_reads_task args_override) []
  /\ snd (exec (completes 1 "") (Task.trim_reads_task args_override) [])
     = Ok (mkLatchDir "trim_galore_out" "s3://bucket/path").
Proof. split; vm_compute; reflexivity. Qed.

(** A failure to launch the child is passed on. *)
Example launch_failure_passed_on :
  snd (exec (fun _ => Raise LaunchError) (Task.trim_reads_task args0) [])
  = Raise LaunchError.
Proof. reflexivity. Qed.

(** C10: the normalisation is applied to an override only.  Without an
    override the task returns the default string
    ["latch:///Trim Galore Output/"] as it is, with its trailing ["/"],
    which [_fmt_dir] would have removed. *)
Theorem default_location_verbatim (a : Task.args) (code : Z) (out : string) :
  snd (exec (completes code out)
         (Task.trim_reads_task (Task.with_output_directory None a)) [])
  = Ok (mkLatchDir "trim_galore_out" "latch:///Trim Galore Output/")
  /\ _fmt_dir "latch:///Trim Galore Output/" = Ok "latch:///Trim Galore Output"
  /\ (forall d : LatchDir,
        snd (exec (completes code out)
               (Task.trim_reads_task (Task.with_output_directory (Some d) a)) [])
        = match _fmt_dir (remote_source d) with
          | Ok loc => Ok (mkLatchDir "trim_galore_out" loc)
          | Raise e => Raise e
          end).
Proof.
  split; [|split].
  - rewrite (exec_trim_reads_task _ _ code out [] eq_refl). reflexivity.
  - reflexivity.
  - intros d. rewrite (exec_trim_reads_task _ _ code out [] eq_refl).
    reflexivity.
Qed.

(** * Further properties of the task *)

(** ** [_fmt_dir] on every string *)

Lemma string_snoc_cases (s : string) :
  s = "" \/ exists s' c, s = (s' ++ String c "")%string.
Proof.
  induction s as [|x s IH]; [left; reflexivity | right].
  destruct IH as [->|(s' & c & ->)].
  - exists "", x. reflexivity.
  - exists (String x s'), c. reflexivity.
Qed.

Lemma string_snoc_inj (s1 s2 : string) (c1 c2 : ascii) :
  (s1 ++ String c1 "")%string = (s2 ++ String c2 "")%string ->
  s1 = s2 /\ c1 = c2.
Proof.
  revert s2; induction s1 as [|x s1 IH]; intros [|y s2] H; simpl in H.
  - injection H as ->. split; reflexivity.
  - injection H as -> H. destruct s2; discriminate H.
  - injection H as -> H. destruct s1; discriminate H.
  - injection H as -> H. destruct (IH _ H) as [-> ->]. split; reflexivity.
Qed.

(** X1: [_fmt_dir] fails on the empty string and on nothing else, and
    [IndexError] is the only error it raises. *)
Theorem _fmt_dir_raises_iff_empty (s : string) (e : exn) :
  _fmt_dir s = Raise e <-> s = "" /\ e = IndexError.
Proof.
  split.
  - destruct (string_snoc_cases s) as [->|(s' & c & ->)].
    + intros H. injection H as <-. split; reflexivity.
    + rewrite _fmt_dir_snoc. discriminate.
  - intros [-> ->]. reflexivity.
Qed.

(** X2: what [_fmt_dir] returns is the argument without one trailing
    ["/"], or the argument itself when it ends in another character:
    nothing else is ever removed or changed. *)
Theorem _fmt_dir_returns_iff (s r : string) :
  _fmt_dir s = Ok r
  <-> s = (r ++ "/")%string
      \/ (r = s /\ exists s' c, s = (s' ++ String c "")%string
                               /\ c <> "/"%char).
Proof.
  split.
  - destruct (string_snoc_cases s) as [->|(s' & c & ->)]; [discriminate|].
    rewrite _fmt_dir_snoc. intros H. injection H as <-.
    destruct (Ascii.eqb_spec c "/") as [->|N].
    + left. reflexivity.
    + right. split; [reflexivity|]. exists s', c. split; [reflexivity|exact N].
  - intros [->|[-> (s' & c & -> & N)]].
    + apply (_fmt_dir_snoc r "/").
    + rewrite _fmt_dir_snoc.
      destruct (Ascii.eqb_spec c "/"); [contradiction | reflexivity].
Qed.

(** X3: the destination is the empty string exactly when the override's
    remote path is ["/"]; an absent override never gives it. *)
Theorem latch_out_location_empty_iff (a : Task.args) :
  Task.latch_out_location a = Ok ""
  <-> exists d, Task.output_directory a = Some d /\ remote_source d = "/".
Proof.
  unfold Task.latch_out_location.
  destruct (Task.output_directory a) as [d|].
  - split.
    + intros H. exists d. split; [reflexivity|].
      destruct (string_snoc_cases (remote_source d)) as [E|(s' & c & E)];
        rewrite E in H; [discriminate H|].
      rewrite _fmt_dir_snoc in H. injection H as H.
      destruct (Ascii.eqb_spec c "/") as [Ec|N].
      * rewrite E, H, Ec. reflexivity.
      * destruct s'; discriminate H.
    + intros (d' & E & H). injection E as <-. rewrite H. reflexivity.
  - split; [discriminate | intros (d & E & _); discriminate E].
Qed.

(** ** The statements of [_cmd], one at a time *)

Lemma skipn_nth_error {A : Type} (l : list A) (n : nat) (x : A) :
  nth_error l n = Some x -> skipn n l = x :: skipn (S n) l.
Proof.
  revert n; induction l as [|y l IH]; intros [|n] H; try discriminate H.
  - injection H as ->. reflexivity.
  - apply (IH n H).
Qed.

Lemma block_cons (s : Task.stmt) (ss : list Task.stmt) :
  Task.additive s -> Forall Task.additive ss ->
  Task.block (s :: ss) [] = Task.added s ++ Task.block ss [].
Proof.
  intros Hs Hss.
  rewrite (Stmt.block_additive (s :: ss)) by (constructor; assumption).
  rewrite (Stmt.block_additive ss) by assumption. reflexivity.
Qed.

Lemma cmd_split (a : Task.args) (n : nat) :
  Task.trim_reads_cmd a
  = Task.block (firstn n (Task.cmd_stmts a)) []
      ++ Task.block (skipn n (Task.cmd_stmts a)) [].
Proof.
  rewrite Stmt.trim_reads_cmd_added.
  rewrite !Stmt.block_additive
    by (apply Forall_firstn_of || apply Forall_skipn_of;
        apply Stmt.cmd_stmts_additive).
  cbn [app]. rewrite <- concat_app, <- map_app, firstn_skipn. reflexivity.
Qed.

(** [_cmd] around its [n]-th statement. *)
Lemma cmd_at (a : Task.args) (n : nat) (s : Task.stmt) :
  nth_error (Task.cmd_stmts a) n = Some s ->
  Task.trim_reads_cmd a
  = Task.block (firstn n (Task.cmd_stmts a)) []
      ++ Task.added s
      ++ Task.block (skipn (S n) (Task.cmd_stmts a)) [].
Proof.
  intros H. rewrite (cmd_split a n), (skipn_nth_error _ _ _ H).
  rewrite block_cons; [reflexivity | |].
  - assert (F := Stmt.cmd_stmts_additive a).
    rewrite Forall_forall in F. apply F. eapply nth_error_In, H.
  - apply Forall_skipn_of, Stmt.cmd_stmts_additive.
Qed.

(** [_cmd] around two statements in a row. *)
Lemma cmd_at2 (a : Task.args) (n : nat) (s1 s2 : Task.stmt) :
  nth_error (Task.cmd_stmts a) n = Some s1 ->
  nth_error (Task.cmd_stmts a) (S n) = Some s2 ->
  Task.trim_reads_cmd a
  = Task.block (firstn n (Task.cmd_stmts a)) []
      ++ (Task.added s1 ++ Task.added s2)
      ++ Task.block (skipn (S (S n)) (Task.cmd_stmts a)) [].
Proof.
  intros H1 H2. rewrite (cmd_at a n s1 H1), (skipn_nth_error _ _ _ H2).
  rewrite block_cons; [now rewrite <- app_assoc | |].
  - assert (F := Stmt.cmd_stmts_additive a).
    rewrite Forall_forall in F. apply F. eapply nth_error_In, H2.
  - apply Forall_skipn_of, Stmt.cmd_stmts_additive.
Qed.

Lemma trim_reads_cmd_head (a : Task.args) :
  Task.trim_reads_cmd a
  = cmd_head a ++ Task.block (skipn 1 (Task.cmd_stmts a)) [].
Proof. apply (cmd_at a 0 _ eq_refl). Qed.

(** X4: whatever the parameters, [_cmd] starts with the program, the two
    input paths as they are, [--paired], [--output_dir] and
    [trim_galore_out]: nothing a parameter holds can move or replace these
    six tokens. *)
Theorem trim_reads_cmd_starts_with_head (a : Task.args) :
  firstn 6 (Task.trim_reads_cmd a)
  = [ "./TrimGalore-0.6.10/trim_galore";
      local_path (Task.input_forward a);
      local_path (Task.input_reverse a);
      "--paired"; "--output_dir"; "trim_galore_out" ]
  /\ nth_error (Task.trim_reads_cmd a) 0
     = Some "./TrimGalore-0.6.10/trim_galore".
Proof.
  rewrite trim_reads_cmd_head. split; reflexivity.
Qed.

(** X5: the nine quality tokens are always in [_cmd], next to each other
    and in order, whatever the values: [quality], [length], [length_1] and
    [length_2] are not tested for truthiness, so zero is printed as [0]. *)
Theorem quality_block_always_emitted (a : Task.args) :
  contains_block (Task.trim_reads_cmd a)
    [ "--quality"; Py.str_int (Task.quality a);
      BaseQualityEncoding.value (Task.base_quality_encoding a);
      "--length"; Py.str_int (Task.length a);
      "--length_1"; Py.str_int (Task.length_1 a);
      "--length_2"; Py.str_int (Task.length_2 a) ].
Proof.
  eexists; eexists. apply (cmd_at a 4 _ eq_refl).
Qed.

(** X6: [--stringency] and its value are always in [_cmd], zero and
    negative values included; when [error_rate] is truthy they come
    directly after [-e] and its value. *)
Theorem stringency_always_emitted (a : Task.args) :
  contains_block (Task.trim_reads_cmd a)
    ["--stringency"; Py.str_int (Task.stringency a)]
  /\ (Py.truthy_float (Task.error_rate a) = true ->
      contains_block (Task.trim_reads_cmd a)
        [ "-e"; Py.str_float (Task.error_rate a);
          "--stringency"; Py.str_int (Task.stringency a) ]).
Proof.
  split.
  - eexists; eexists. apply (cmd_at a 10 _ eq_refl).
  - intros T. eexists; eexists.
    rewrite (cmd_at2 a 9 _ _ eq_refl eq_refl).
    unfold Task.added at 1, Task.If. rewrite T. reflexivity.
Qed.

Lemma stringency_always_emitted_witness :
  Py.truthy_float (Task.error_rate args_full) = true
  /\ contains_block (Task.trim_reads_cmd args_full)
       ["-e"; "0.05"; "--stringency"; "0"].
Proof.
  exact (conj eq_refl
           (proj2 (stringency_always_emitted args_full) eq_refl)).
Defined.

(** ** The length of [_cmd] *)

Lemma length_added_If (c : bool) (x : string) :
  List.length (Task.added (Task.If c (Task.append x)))
  = if c then 1 else 0.
Proof. destruct c; reflexivity. Qed.

Lemma length_added_If_extend (c : bool) (xs : list string) :
  List.length (Task.added (Task.If c (Task.extend xs)))
  = if c then List.length xs else 0.
Proof. destruct c; reflexivity. Qed.

Lemma length_added_IfElse (c : bool) (x y : string) :
  List.length (Task.added (Task.IfElse c (Task.append x) (Task.append y))) = 1.
Proof. destruct c; reflexivity. Qed.

Lemma length_added_IfTruthy {A : Type} (truthy : A -> bool) (o : option A)
  (s : A -> Task.stmt) (k : nat) :
  (forall v, List.length (Task.added (s v)) = k) ->
  List.length (Task.added (Task.IfTruthy truthy o s))
  = if Py.truthy_opt truthy o then k else 0.
Proof.
  intros H. unfold Task.added, Task.IfTruthy.
  destruct o as [v|]; [|reflexivity]. cbn [Py.truthy_opt].
  destruct (truthy v); [apply H | reflexivity].
Qed.

Lemma if_le (b : bool) (k : nat) : (if b then k else 0) <= k.
Proof. destruct b; lia. Qed.

(** X7: [_cmd] has at least 18 and at most 53 tokens.  The least is
    reached with every optional parameter present but falsy and every flag
    off, the most with every optional parameter truthy and every flag
    on. *)
Theorem trim_reads_cmd_length_bounds (a : Task.args) :
  (18 <= List.length (Task.trim_reads_cmd a) <= 53)
  /\ List.length (Task.trim_reads_cmd args_falsy) = 18
  /\ List.length (Task.trim_reads_cmd args_full) = 53.
Proof.
  split; [|split; vm_compute; reflexivity].
  rewrite Stmt.trim_reads_cmd_added. unfold Task.cmd_stmts.
  cbn [map List.concat].
  rewrite !length_app, !length_added_If, length_added_If_extend,
    length_added_IfElse.
  rewrite !(length_added_IfTruthy _ _ _ 2) by (intros; reflexivity).
  change (List.length (Task.added (Task.extend ?l))) with (List.length l).
  cbn [List.length].
  repeat match goal with
    | |- context [if ?c then ?k else 0] =>
        let x := fresh "x" in
        let H := fresh "H" in
        assert (H := if_le c k);
        set (x := if c then k else 0) in *; clearbody x
    end.
  lia.
Qed.

(** ** How each parameter shows in [_cmd] *)

Ltac count_flag t :=
  rewrite (Count.count_cmd t eq_refl eq_refl); eval_flags;
  repeat match goal with
    | |- context [if ?c then _ else _] => destruct c
    end;
  lia.

(** X8: an integer [Optional] parameter adds its flag by truthiness: for
    each of the eight, the flag occurs in [_cmd] once more than among the
    caller's own strings when the value is present and non-zero, and no
    more than among them when it is [None] or [0]. *)
Theorem int_optionals_by_truthiness (a : Task.args) :
  let n (t : string) (o : option Z) :=
    count t (user_strings a)
    + (if Py.truthy_opt Py.truthy_int o then 1 else 0) in
  count "--max_length" (Task.trim_reads_cmd a)
  = n "--max_length" (Task.max_length a)
  /\ count "--consider_already_trimmed" (Task.trim_reads_cmd a)
     = n "--consider_already_trimmed" (Task.consider_already_trimmed a)
  /\ count "--hardtrim5" (Task.trim_reads_cmd a)
     = n "--hardtrim5" (Task.hardtrim5 a)
  /\ count "--hardtrim3" (Task.trim_reads_cmd a)
     = n "--hardtrim3" (Task.hardtrim3 a)
  /\ count "--clip_R1" (Task.trim_reads_cmd a)
     = n "--clip_R1" (Task.clip_R1 a)
  /\ count "--clip_R2" (Task.trim_reads_cmd a)
     = n "--clip_R2" (Task.clip_R2 a)
  /\ count "--three_prime_clip_R1" (Task.trim_reads_cmd a)
     = n "--three_prime_clip_R1" (Task.three_prime_clip_R1 a)
  /\ count "--three_prime_clip_R2" (Task.trim_reads_cmd a)
     = n "--three_prime_clip_R2" (Task.three_prime_clip_R2 a).
Proof.
  cbv zeta. repeat split.
  - count_flag "--max_length".
  - count_flag "--consider_already_trimmed".
  - count_flag "--hardtrim5".
  - count_flag "--hardtrim3".
  - count_flag "--clip_R1".
  - count_flag "--clip_R2".
  - count_flag "--three_prime_clip_R1".
  - count_flag "--three_prime_clip_R2".
Qed.

Lemma IfTruthy_emits (a : Task.args) (n : nat) {A : Type}
  (truthy : A -> bool) (o : option A) (s : A -> Task.stmt) (v : A) :
  nth_error (Task.cmd_stmts a) n = Some (Task.IfTruthy truthy o s) ->
  o = Some v -> truthy v = true ->
  contains_block (Task.trim_reads_cmd a) (Task.added (s v)).
Proof.
  intros H -> T. eexists; eexists. rewrite (cmd_at a n _ H).
  unfold Task.added at 1, Task.IfTruthy. rewrite T. reflexivity.
Qed.

(** X9: a present, non-zero integer parameter puts its flag directly
    followed by [str] of the value into [_cmd]; negative values are
    printed with their sign, they are not rejected. *)
Theorem int_optionals_emit_pair (a : Task.args) (z : Z) :
  z <> 0%Z ->
  (Task.max_length a = Some z ->
   contains_block (Task.trim_reads_cmd a) ["--max_length"; Py.str_int z])
  /\ (Task.consider_already_trimmed a = Some z ->
      contains_block (Task.trim_reads_cmd a)
        ["--consider_already_trimmed"; Py.str_int z])
  /\ (Task.hardtrim5 a = Some z ->
      contains_block (Task.trim_reads_cmd a) ["--hardtrim5"; Py.str_int z])
  /\ (Task.hardtrim3 a = Some z ->
      contains_block (Task.trim_reads_cmd a) ["--hardtrim3"; Py.str_int z])
  /\ (Task.clip_R1 a = Some z ->
      contains_block (Task.trim_reads_cmd a) ["--clip_R1"; Py.str_int z])
  /\ (Task.clip_R2 a = Some z ->
      contains_block (Task.trim_reads_cmd a) ["--clip_R2"; Py.str_int z])
  /\ (Task.three_prime_clip_R1 a = Some z ->
      contains_block (Task.trim_reads_cmd a)
        ["--three_prime_clip_R1"; Py.str_int z])
  /\ (Task.three_prime_clip_R2 a = Some z ->
      contains_block (Task.trim_reads_cmd a)
        ["--three_prime_clip_R2"; Py.str_int z]).
Proof.
  intros Hz.
  assert (T : Py.truthy_int z = true).
  { unfold Py.truthy_int. destruct (Z.eqb_spec z 0); [contradiction|].
    reflexivity. }
  repeat split; intros E.
  - exact (IfTruthy_emits a 5 _ _ _ z eq_refl E T).
  - exact (IfTruthy_emits a 13 _ _ _ z eq_refl E T).
  - exact (IfTruthy_emits a 17 _ _ _ z eq_refl E T).
  - exact (IfTruthy_emits a 18 _ _ _ z eq_refl E T).
  - exact (IfTruthy_emits a 19 _ _ _ z eq_refl E T).
  - exact (IfTruthy_emits a 20 _ _ _ z eq_refl E T).
  - exact (IfTruthy_emits a 23 _ _ _ z eq_refl E T).
  - exact (IfTruthy_emits a 24 _ _ _ z eq_refl E T).
Qed.

(** X9 on a call with [clip_R2 = -4]. *)
Lemma int_optionals_emit_pair_witness :
  (-4 <> 0)%Z
  /\ Task.clip_R2 args_full = Some (-4)%Z
  /\ contains_block (Task.trim_reads_cmd args_full) ["--clip_R2"; "-4"].
Proof.
  assert (H : (-4 <> 0)%Z) by discriminate.
  refine (conj H (conj eq_refl _)).
  destruct (int_optionals_emit_pair args_full (-4)%Z H)
    as (_ & _ & _ & _ & _ & C & _).
  exact (C eq_refl).
Defined.

(** X10: each boolean parameter adds its flag exactly when it is true,
    except [report_file], which adds [--no_report_file] exactly when it is
    false: the flag occurs in [_cmd] once more than among the caller's own
    strings in that case and no more than among them otherwise. *)
Theorem boolean_flags (a : Task.args) :
  let n (t : string) (b : bool) :=
    count t (user_strings a) + (if b then 1 else 0) in
  count "--retain_unpaired" (Task.trim_reads_cmd a)
  = n "--retain_unpaired" (Task.retain_unpaired a)
  /\ count "--trim-n" (Task.trim_reads_cmd a) = n "--trim-n" (Task.trim_n a)
  /\ count "--fastqc" (Task.trim_reads_cmd a) = n "--fastqc" (Task.fastqc a)
  /\ count "--no_report_file" (Task.trim_reads_cmd a)
     = n "--no_report_file" (negb (Task.report_file a))
  /\ count "--polyA" (Task.trim_reads_cmd a) = n "--polyA" (Task.polyA a)
  /\ count "--implicon" (Task.trim_reads_cmd a)
     = n "--implicon" (Task.implicon a).
Proof.
  cbv zeta. repeat split.
  - count_flag "--retain_unpaired".
  - count_flag "--trim-n".
  - count_flag "--fastqc".
  - count_flag "--no_report_file".
  - count_flag "--polyA".
  - count_flag "--implicon".
Qed.

(** X11: the quality encoding is always expressed: [--phred33] occurs in
    [_cmd] once more than among the caller's own strings when the encoding
    is [phred33] and no more than among them when it is [phred64], and the
    other way round for [--phred64]. *)
Theorem encoding_flag (a : Task.args) :
  count "--phred33" (Task.trim_reads_cmd a)
  = count "--phred33" (user_strings a)
    + match Task.base_quality_encoding a with
      | BaseQualityEncoding.phred33 => 1
      | BaseQualityEncoding.phred64 => 0
      end
  /\ count "--phred64" (Task.trim_reads_cmd a)
     = count "--phred64" (user_strings a)
       + match Task.base_quality_encoding a with
         | BaseQualityEncoding.phred33 => 0
         | BaseQualityEncoding.phred64 => 1
         end.
Proof.
  split.
  - rewrite (Count.count_cmd "--phred33" eq_refl eq_refl); eval_flags; lia.
  - rewrite (Count.count_cmd "--phred64" eq_refl eq_refl); eval_flags; lia.
Qed.

Lemma truthy_str_nonempty (v : string) : v <> "" -> Py.truthy_str v = true.
Proof. destruct v; [contradiction | reflexivity]. Qed.

(** X12: a non-empty [base_out], [adapter] or [adapter2] is copied into
    [_cmd] as it is, directly after its flag: the value is not quoted,
    escaped or checked, also when it reads like an option. *)
Theorem string_optionals_verbatim (a : Task.args) (v : string) :
  v <> "" ->
  (Task.base_out a = Some v ->
   contains_block (Task.trim_reads_cmd a) ["--basename"; v])
  /\ (Task.adapter a = Some v ->
      contains_block (Task.trim_reads_cmd a) ["--adapter"; v])
  /\ (Task.adapter2 a = Some v ->
      contains_block (Task.trim_reads_cmd a) ["--adapter2"; v]).
Proof.
  intros Hv. apply truthy_str_nonempty in Hv.
  repeat split; intros E.
  - exact (IfTruthy_emits a 1 _ _ _ v eq_refl E Hv).
  - exact (IfTruthy_emits a 11 _ _ _ v eq_refl E Hv).
  - exact (IfTruthy_emits a 12 _ _ _ v eq_refl E Hv).
Qed.

(** X12 on a call with [base_out = "--gzip"]. *)
Lemma string_optionals_verbatim_witness :
  "--gzip" <> ""
  /\ Task.base_out args_base_out_gzip = Some "--gzip"
  /\ contains_block (Task.trim_reads_cmd args_base_out_gzip)
       ["--basename"; "--gzip"].
Proof.
  assert (H : "--gzip" <> "") by discriminate.
  refine (conj H (conj eq_refl _)).
  exact (proj1 (string_optionals_verbatim args_base_out_gzip "--gzip" H)
           eq_refl).
Defined.

Lemma string_length_append (s1 s2 : string) :
  String.length (s1 ++ s2) = String.length s1 + String.length s2.
Proof.
  induction s1 as [|c s1 IH]; [reflexivity|]. simpl. now rewrite IH.
Qed.

(** X13: a non-empty [fastqc_args] is put into [_cmd] between two double
    quotes, directly after [--fastqc_args], whether [fastqc] is on or not;
    quotes inside the value are not escaped, the token is two characters
    longer than the value. *)
Theorem fastqc_args_quoted (a : Task.args) (v : string) :
  v <> "" ->
  Task.fastqc_args a = Some v ->
  contains_block (Task.trim_reads_cmd a)
    ["--fastqc_args"; (Task.dquote ++ v ++ Task.dquote)%string]
  /\ String.length (Task.dquote ++ v ++ Task.dquote)
     = 2 + String.length v.
Proof.
  intros Hv E. apply truthy_str_nonempty in Hv. split.
  - exact (IfTruthy_emits a 15 _ _ _ v eq_refl E Hv).
  - rewrite !string_length_append. cbn [Task.dquote String.length]. lia.
Qed.

(** X13 on a call with [fastqc] off. *)
Lemma fastqc_args_quoted_witness :
  "-t 2" <> ""
  /\ Task.fastqc (Task.with_fastqc_args (Some "-t 2") args_falsy) = false
  /\ contains_block
       (Task.trim_reads_cmd (Task.with_fastqc_args (Some "-t 2") args_falsy))
       ["--fastqc_args"; (Task.dquote ++ "-t 2" ++ Task.dquote)%string].
Proof.
  assert (H : "-t 2" <> "") by discriminate.
  refine (conj H (conj eq_refl _)).
  exact (proj1 (fastqc_args_quoted
                  (Task.with_fastqc_args (Some "-t 2") args_falsy)
                  "-t 2" H eq_refl)).
Defined.

(** ** Where the tokens of [_cmd] come from *)





(** ** Failures of the task *)

(** X15: when the child cannot be launched the task fails with the
    launcher's error after that one attempt: no destination is resolved
    and no [LatchDir] is returned, whatever the override is. *)
Theorem launch_error_propagates (env : environment) (a : Task.args)
  (e : exn) :
  env (Task.trim_reads_cmd a) = Raise e ->
  exec env (Task.trim_reads_task a) [] = ([Task.trim_reads_cmd a], Raise e).
Proof.
  intros H. unfold Task.trim_reads_task. cbn [exec]. rewrite H. reflexivity.
Qed.

Lemma launch_error_propagates_witness :
  launch_fails LaunchError (Task.trim_reads_cmd args_override)
  = Raise LaunchError
  /\ exec (launch_fails LaunchError) (Task.trim_reads_task args_override) []
     = ([Task.trim_reads_cmd args_override], Raise LaunchError).
Proof.
  exact (conj eq_refl
           (launch_error_propagates (launch_fails LaunchError) args_override
              LaunchError eq_refl)).
Defined.

(** X16: an override with an empty remote path makes the task fail with
    [IndexError], but only after the child has been launched with [_cmd]
    and has completed: the path is not looked at before the run. *)
Theorem empty_override_fails_after_run (env : environment) (a : Task.args)
  (d : LatchDir) (code : Z) (out : string) :
  env (Task.trim_reads_cmd a) = Ok (code, out) ->
  Task.output_directory a = Some d ->
  remote_source d = "" ->
  exec env (Task.trim_reads_task a) []
  = ([Task.trim_reads_cmd a], Raise IndexError).
Proof.
  intros He Hd Hr.
  rewrite (exec_trim_reads_task env a code out [] He).
  unfold Task.latch_out_location. rewrite Hd, Hr. reflexivity.
Qed.

Lemma empty_override_fails_after_run_witness :
  completes 0 "" (Task.trim_reads_cmd args_empty_override) = Ok (0%Z, "")
  /\ Task.output_directory args_empty_override
     = Some (mkLatchDir "/root/out" "")
  /\ exec (completes 0 "") (Task.trim_reads_task args_empty_override) []
     = ([Task.trim_reads_cmd args_empty_override], Raise IndexError).
Proof.
  exact (conj eq_refl
           (conj eq_refl
              (empty_override_fails_after_run (completes 0 "")
                 args_empty_override (mkLatchDir "/root/out" "") 0%Z ""
                 eq_refl eq_refl eq_refl))).
Defined.

Lemma _fmt_dir_Ok_nonempty (s r : string) : _fmt_dir s = Ok r -> s <> "".
Proof. intros H ->. discriminate H. Qed.

(** X17: the task returns a [LatchDir] exactly when the child could be
    launched and ran to completion and the override, if there is one, has
    a non-empty remote path; the exit status plays no part. *)
Theorem trim_reads_task_succeeds_iff (env : environment) (a : Task.args) :
  (exists d, snd (exec env (Task.trim_reads_task a) []) = Ok d)
  <-> (exists code out, env (Task.trim_reads_cmd a) = Ok (code, out))
      /\ override_nonempty a.
Proof.
  split.
  - intros [d H]. destruct (env (Task.trim_reads_cmd a)) as [[code out]|e] eqn:E.
    + split; [eauto|].
      rewrite (exec_trim_reads_task env a code out [] E) in H. cbn [snd] in H.
      unfold override_nonempty. unfold Task.latch_out_location in H.
      destruct (Task.output_directory a) as [o|]; [|exact I].
      destruct (_fmt_dir (remote_source o)) as [r|e] eqn:F; [|discriminate H].
      exact (_fmt_dir_Ok_nonempty _ _ F).
    + unfold Task.trim_reads_task in H. cbn [exec] in H. rewrite E in H.
      discriminate H.
  - intros [(code & out & E) Ho].
    destruct (latch_out_location_ok a Ho) as [loc L].
    exists (mkLatchDir Task.local_dir loc).
    rewrite (exec_trim_reads_task env a code out [] E), L. reflexivity.
Qed.

(** X18: the directory the task returns is the directory it told the
    program to write to: in every successful run the local path of the
    [LatchDir] is the token of [_cmd] that follows [--output_dir], and the
    remote path is the resolved destination. *)
Theorem returned_dir_is_output_dir (env : environment) (a : Task.args)
  (d : LatchDir) :
  snd (exec env (Task.trim_reads_task a) []) = Ok d ->
  nth_error (Task.trim_reads_cmd a) 4 = Some "--output_dir"
  /\ nth_error (Task.trim_reads_cmd a) 5 = Some (dir_path d)
  /\ Task.latch_out_location a = Ok (remote_source d).
Proof.
  intros H. rewrite trim_reads_cmd_head.
  unfold Task.trim_reads_task in H. cbn [exec] in H.
  destruct (env (Task.trim_reads_cmd a)) as [[code out]|e]; [|discriminate H].
  destruct (Task.latch_out_location a) as [loc|e]; [|discriminate H].
  cbn in H. injection H as <-. repeat split.
Qed.

Lemma returned_dir_is_output_dir_witness :
  snd (exec (completes 1 "") (Task.trim_reads_task args_override) [])
  = Ok (mkLatchDir "trim_galore_out" "s3://bucket/path")
  /\ nth_error (Task.trim_reads_cmd args_override) 5 = Some "trim_galore_out".
Proof.
  assert (H : snd (exec (completes 1 "")
                     (Task.trim_reads_task args_override) [])
              = Ok (mkLatchDir "trim_galore_out" "s3://bucket/path"))
    by reflexivity.
  exact (conj H
           (proj1 (proj2 (returned_dir_is_output_dir (completes 1 "")
                            args_override _ H)))).
Defined.

(** ** The workflow *)


(** ** The enums *)

(** X20: distinct members of each enum have distinct values, so the token
    in [_cmd] tells the member; and the value of [auto], the string
    [auto], is never appended: it occurs in [_cmd] only where the caller's
    own strings have it. *)
Theorem enum_values_distinct (a : Task.args) :
  (forall e1 e2, BaseQualityEncoding.value e1 = BaseQualityEncoding.value e2 ->
                 e1 = e2)
  /\ (forall e1 e2, AdapterSequence.value e1 = AdapterSequence.value e2 ->
                    e1 = e2)
  /\ count "auto" (Task.trim_reads_cmd a) = count "auto" (user_strings a).
Proof.
  split; [|split].
  - intros [] [] H; try reflexivity; discriminate H.
  - intros [] [] H; try reflexivity; discriminate H.
  - rewrite (Count.count_cmd "auto" eq_refl eq_refl); eval_flags; lia.
Qed.

Lemma enum_values_distinct_witness :
  AdapterSequence.value AdapterSequence.nextera = "--nextera"
  /\ AdapterSequence.nextera = AdapterSequence.nextera.
Proof.
  exact (conj eq_refl
           (proj1 (proj2 (enum_values_distinct args0))
              AdapterSequence.nextera AdapterSequence.nextera eq_refl)).
Defined.

(** ** The metadata *)

Lemma existsb_eqb_In (x : string) (l : list string) :
  existsb (String.eqb x) l = true <-> In x l.
Proof.
  rewrite existsb_exists. split.
  - intros (y & Hy & E). apply String.eqb_eq in E. now subst.
  - intros H. exists x. split; [exact H | apply String.eqb_refl].
Qed.

Lemma nodupb_NoDup (l : list string) : nodupb l = true -> NoDup l.
Proof.
  induction l as [|x l IH]; simpl; [constructor|].
  intros H. apply andb_prop in H as [H1 H2]. constructor.
  - intros Hin. apply existsb_eqb_In in Hin. rewrite Hin in H1.
    discriminate H1.
  - apply IH, H2.
Qed.

Lemma inclb_incl (l1 l2 : list string) :
  inclb l1 l2 = true -> forall x, In x l1 -> In x l2.
Proof.
  unfold inclb. rewrite forallb_forall. intros H x Hx.
  apply existsb_eqb_In, H, Hx.
Qed.

(** X21: the metadata, the flow and the signature name the same
    thirty-one parameters: no key of [parameters] is written twice, every
    parameter of the task has an entry and every entry is a parameter; the
    sections of the flow show every parameter in exactly one place; no
    parameter is hidden and no two have the same display name. *)
Theorem metadata_covers_signature :
  NoDup Metadata.keys
  /\ NoDup Metadata.flow_params
  /\ NoDup (map (fun kv => Metadata.display_name (snd kv)) Metadata.parameters)
  /\ (forall n, In n Metadata.signature <-> In n Metadata.keys)
  /\ (forall n, In n Metadata.keys <-> In n Metadata.flow_params)
  /\ (forall n, In n Metadata.signature ->
        exists p, Metadata.lookup n Metadata.parameters = Some p
                  /\ Metadata.hidden p = false).
Proof.
  split; [|split; [|split; [|split; [|split]]]].
  - apply nodupb_NoDup. vm_compute. reflexivity.
  - apply nodupb_NoDup. vm_compute. reflexivity.
  - apply nodupb_NoDup. vm_compute. reflexivity.
  - intros n; split; apply inclb_incl; vm_compute; reflexivity.
  - intros n; split; apply inclb_incl; vm_compute; reflexivity.
  - assert (F : Forall (fun n => exists p,
                          Metadata.lookup n Metadata.parameters = Some p
                          /\ Metadata.hidden p = false) Metadata.signature).
    { unfold Metadata.signature.
      repeat (apply Forall_cons; [eexists; split; vm_compute; reflexivity|]).
      apply Forall_nil. }
    rewrite Forall_forall in F. exact F.
Qed.

Lemma metadata_covers_signature_witness :
  In "clip_R1" Metadata.signature
  /\ exists p, Metadata.lookup "clip_R1" Metadata.parameters = Some p
               /\ Metadata.hidden p = false.
Proof.
  assert (H : In "clip_R1" Metadata.signature)
    by (apply existsb_eqb_In; vm_compute; reflexivity).
  destruct metadata_covers_signature as (_ & _ & _ & _ & _ & L).
  exact (conj H (L "clip_R1" H)).
Defined.
